(** * Multi-Agent Nexus: the setup script's supervision core

    A shallow embedding of [scripts/setup.py]: the heartbeat start-up with
    its PID-file clean-up, the heartbeat loop, the launch of the monitors
    and the main sequence that composes them.

    The script is effectful Python.  It is modelled in a state-and-exception
    monad over a [World] (the working directory, the operator's pending
    input and the trace of effects performed so far) and a read-only [Env]
    (what the host answers: [platform.system()], [shutil.which], whether a
    command can be spawned and how it exits, whether a signal is delivered).

    What can fail in the model is what can fail in the script at the calls
    it makes: spawning a command ([subprocess.run] and [subprocess.Popen]
    raise an [OSError] when the program cannot be executed), a command's
    exit status, [os.kill] (which raises when the signal is not delivered
    and ends the script itself when the signal reaches its own process),
    opening a path that is not a regular file, opening a file for writing
    where that is refused, [os.chmod] where that is refused, [int] on text
    that is no integer or has more digits than [int] converts, [os.remove]
    of an absent path, [os.makedirs] onto a regular file and [input] at end
    of input.  Printing, starting a thread and [atexit.register] are taken
    to succeed.  File contents and operator input are ASCII text. *)

From stdpp Require Import gmap strings list fin_maps.
From Stdlib Require Import ZArith Ascii String.

Local Open Scope string_scope.
Local Open Scope Z_scope.

(** ** Python values the script relies on *)

Module Py.

(** The exception classes the script can meet.  [OSError] stands for its
    subclasses too ([FileNotFoundError], [PermissionError],
    [ProcessLookupError], [FileExistsError], [IsADirectoryError]).
    [Terminated] is no exception: it marks a run that ended because a
    signal ended the script's own process, which no [except] clause
    sees. *)
Inductive exn : Type :=
| OSError
| CalledProcessError
| ValueError
| EOFError
| Terminated.

Definition is_terminated (e : exn) : bool :=
  match e with
  | Terminated => true
  | _ => false
  end.

Inductive result (A : Type) : Type :=
| Ok (a : A)
| Raise (e : exn).
Arguments Ok {A} a.
Arguments Raise {A} e.

(** Characters that are spelled by their code rather than inside a
    string literal. *)
Definition dquote : string := String (ascii_of_nat 34) "".
Definition esc : string := String (ascii_of_nat 27) "".
Definition newline : string := String (ascii_of_nat 10) "".
Definition backslash : string := String (ascii_of_nat 92) "".

(** [str.isspace] on ASCII. *)
Definition is_space (c : ascii) : bool :=
  let n := nat_of_ascii c in
  ((9 <=? n)%nat && (n <=? 13)%nat) || ((28 <=? n)%nat && (n <=? 32)%nat).

Fixpoint lstrip (s : string) : string :=
  match s with
  | String c s' => if is_space c then lstrip s' else s
  | EmptyString => EmptyString
  end.

(** [rstrip] keeps a character when it is no space or when something
    that is kept follows it. *)
Fixpoint rstrip (s : string) : string :=
  match s with
  | String c s' =>
      match rstrip s' with
      | EmptyString => if is_space c then EmptyString else String c EmptyString
      | r => String c r
      end
  | EmptyString => EmptyString
  end.

(** [str.strip()] *)
Definition strip (s : string) : string := rstrip (lstrip s).

Definition is_digit (c : ascii) : bool :=
  let n := nat_of_ascii c in (48 <=? n)%nat && (n <=? 57)%nat.

Definition digit_value (c : ascii) : Z := Z.of_nat (nat_of_ascii c) - 48.

(** Decimal digits with single underscores allowed between digits, as
    [int] accepts them. *)
Fixpoint parse_digits (s : string) (acc : Z) (after_digit : bool) : option Z :=
  match s with
  | EmptyString => if after_digit then Some acc else None
  | String c s' =>
      if is_digit c then parse_digits s' (10 * acc + digit_value c) true
      else if Ascii.eqb c "_"%char
           then (if after_digit then parse_digits s' acc false else None)
           else None
  end.

(** The digit characters of [s]; underscores do not count. *)
Fixpoint digit_count (s : string) : nat :=
  match s with
  | EmptyString => O
  | String c s' => if is_digit c then S (digit_count s') else digit_count s'
  end.

(** [sys.int_info.default_max_str_digits]: [int] refuses a decimal string
    with more digit characters than this (leading zeros count, the sign,
    underscores and white space do not). *)
Definition max_str_digits : nat := 4300.

Definition int_of_digits (d : string) : result Z :=
  match parse_digits d 0 false with
  | Some n =>
      if (digit_count d <=? max_str_digits)%nat then Ok n
      else Raise ValueError
  | None => Raise ValueError
  end.

(** [int(s)] in base ten: surrounding white space, an optional sign, then
    digits.  [Raise ValueError] for anything else. *)
Definition int (s : string) : result Z :=
  match strip s with
  | String "-"%char d =>
      match int_of_digits d with
      | Ok n => Ok (- n)
      | Raise e => Raise e
      end
  | String "+"%char d => int_of_digits d
  | d => int_of_digits d
  end.

(** Truth value of what [shutil.which] returns: [None] and the empty
    string are false. *)
Definition truthy (o : option string) : bool :=
  match o with
  | Some EmptyString => false
  | Some _ => true
  | None => false
  end.

(** [sep.join(l)] *)
Fixpoint join (sep : string) (l : list string) : string :=
  match l with
  | [] => ""
  | [x] => x
  | x :: rest => x ++ sep ++ join sep rest
  end.

End Py.

Import Py.

(** ** The host and the working directory *)

(** How a spawned command ends: it runs and exits with a status, or it
    cannot be started at all (the program is missing or not executable). *)
Inductive outcome : Type :=
| Exited (code : Z)
| NotStarted.

(** What the host answers.  [spawn], [signal_ok], [writable] and
    [chmod_ok] take the logical time of the call (the number of effects
    performed before it), so that the same call may succeed at one time and
    fail at another. *)
Record Env : Type := {
  system : string;                       (* platform.system() *)
  environ : list string;                 (* names set in os.environ *)
  isatty : bool;                         (* sys.stdout.isatty() *)
  which : string -> option string;       (* shutil.which *)
  spawn : nat -> list string -> outcome; (* executing an argv *)
  signal_ok : nat -> Z -> bool;          (* os.kill(pid, SIGTERM) delivers *)
  getpid : Z;                            (* os.getpid() *)
  getpgrp : Z;                           (* os.getpgrp() *)
  writable : nat -> string -> bool;      (* open(path, "w") is allowed *)
  chmod_ok : nat -> string -> bool;      (* os.chmod(path, mode) is allowed *)
  glob_scripts : list string             (* Path("scripts").glob("*.sh") *)
}.

(** The effects of the script, in the order it performs them. *)
Inductive event : Type :=
| EvPrint (line : string)
| EvInput (prompt : string)
| EvRun (argv : list string) (quiet_out quiet_err check : bool)
| EvPopen (argv : list string) (shell quiet : bool)
| EvKill (pid : Z)
| EvRemove (path : string)
| EvCreate (path : string) (content : string)
| EvMakedirs (path : string)
| EvChmod (path : string) (mode : Z)
| EvSleep (seconds : Z)
| EvThread (daemon : bool) (target : string) (agent_id : string)
| EvAtexit (message : string).

Record World : Type := {
  files : gmap string string;   (* regular files: path to text content *)
  dirs : gset string;           (* directories *)
  stdin : list string;          (* lines the operator will type *)
  trace : list event            (* effects so far, oldest first *)
}.

Definition M (A : Type) : Type := World -> result A * World.

Definition ret {A : Type} (a : A) : M A := fun w => (Ok a, w).

Definition raise {A : Type} (e : exn) : M A := fun w => (Raise e, w).

Definition bind {A B : Type} (m : M A) (k : A -> M B) : M B :=
  fun w =>
    match m w with
    | (Ok a, w') => k a w'
    | (Raise e, w') => (Raise e, w')
    end.

Notation "x <- m ;; k" := (bind m (fun x => k))
  (at level 100, m at next level, right associativity).
Notation "m ;;; k" := (bind m (fun _ => k))
  (at level 100, right associativity).

(** [try: body except: handler] with a bare [except], which catches every
    exception.  The effects [body] performed before raising stay.  A run
    that ended with the script's process is not resumed. *)
Definition try_except {A : Type} (body : M A) (handler : M A) : M A :=
  fun w =>
    match body w with
    | (Ok a, w') => (Ok a, w')
    | (Raise e, w') => if is_terminated e then (Raise e, w') else handler w'
    end.

(** [try: body except cls: handler]: other exceptions pass through. *)
Definition try_except_only {A : Type} (cls : exn -> bool)
    (body : M A) (handler : M A) : M A :=
  fun w =>
    match body w with
    | (Ok a, w') => (Ok a, w')
    | (Raise e, w') => if cls e then handler w' else (Raise e, w')
    end.

Definition pass : M unit := ret tt.

Definition lift {A : Type} (r : result A) : M A := fun w => (r, w).

Definition emit (e : event) : M unit :=
  fun w => (Ok tt, {| files := files w; dirs := dirs w; stdin := stdin w;
                      trace := (trace w ++ [e])%list |}).

Definition now : M nat := fun w => (Ok (List.length (trace w)), w).

Fixpoint for_each {A : Type} (l : list A) (body : A -> M unit) : M unit :=
  match l with
  | [] => ret tt
  | x :: rest => body x ;;; for_each rest body
  end.

(** *** Primitive effects *)

Definition print (line : string) : M unit := emit (EvPrint line).

(** [input(prompt)]: the next line the operator types, [EOFError] when
    there is none. *)
Definition input (prompt : string) : M string :=
  emit (EvInput prompt) ;;;
  fun w =>
    match stdin w with
    | line :: rest =>
        (Ok line, {| files := files w; dirs := dirs w; stdin := rest;
                     trace := trace w |})
    | [] => (Raise EOFError, w)
    end.

(** [subprocess.run(argv, ...)]: raises [OSError] when the program cannot
    be started; with [check=True] raises [CalledProcessError] on a non-zero
    exit status; otherwise returns the status. *)
Definition subprocess_run (env : Env) (argv : list string)
    (quiet_out quiet_err check : bool) : M Z :=
  t <- now ;;
  emit (EvRun argv quiet_out quiet_err check) ;;;
  match spawn env t argv with
  | NotStarted => raise OSError
  | Exited code =>
      if check && negb (code =? 0) then raise CalledProcessError else ret code
  end.

(** [subprocess.Popen(argv, ...)]: starts the program and does not wait. *)
Definition subprocess_Popen (env : Env) (argv : list string)
    (shell quiet : bool) : M unit :=
  t <- now ;;
  emit (EvPopen argv shell quiet) ;;;
  match spawn env t argv with
  | NotStarted => raise OSError
  | Exited _ => ret tt
  end.

(** [os.path.exists] *)
Definition path_exists (path : string) : M bool :=
  fun w => (Ok (bool_decide (is_Some (files w !! path))
                || bool_decide (path ∈ dirs w)), w).

(** [open(path, 'r')] followed by [read()]. *)
Definition read_text (path : string) : M string :=
  fun w =>
    match files w !! path with
    | Some text => (Ok text, w)
    | None => (Raise OSError, w)
    end.

(** [os.remove] *)
Definition os_remove (path : string) : M unit :=
  emit (EvRemove path) ;;;
  fun w =>
    match files w !! path with
    | Some _ =>
        (Ok tt, {| files := delete path (files w); dirs := dirs w;
                   stdin := stdin w; trace := trace w |})
    | None => (Raise OSError, w)
    end.

(** The process [os.kill(pid, SIGTERM)] aims at includes the script
    itself: [pid] is the script's own, or, on Linux and macOS, 0 (the
    caller's process group) or the negated id of its process group. *)
Definition reaches_script (env : Env) (pid : Z) : bool :=
  (pid =? getpid env)
  || (negb (String.eqb (system env) "Windows")
      && ((pid =? 0) || (pid =? - getpgrp env))).

(** [os.kill(pid, signal.SIGTERM)]: ends the script when the signal reaches
    it (Python leaves SIGTERM at its default action), raises when the
    signal cannot be delivered, returns otherwise. *)
Definition os_kill (env : Env) (pid : Z) : M unit :=
  t <- now ;;
  emit (EvKill pid) ;;;
  if reaches_script env pid then raise Terminated
  else if signal_ok env t pid then ret tt else raise OSError.

(** [time.sleep] *)
Definition time_sleep (seconds : Z) : M unit := emit (EvSleep seconds).

(** [with open(path, "w") as f: f.write(content)]: raises [OSError], and
    creates nothing, where opening for writing is refused. *)
Definition create_file (env : Env) (path content : string) : M unit :=
  t <- now ;;
  emit (EvCreate path content) ;;;
  if writable env t path then
    fun w =>
      (Ok tt, {| files := <[path := content]> (files w); dirs := dirs w;
                 stdin := stdin w; trace := trace w |})
  else raise OSError.

(** [os.chmod(path, mode)] *)
Definition os_chmod (env : Env) (path : string) (mode : Z) : M unit :=
  t <- now ;;
  emit (EvChmod path mode) ;;;
  if chmod_ok env t path then ret tt else raise OSError.

(** [os.makedirs(path, exist_ok=True)] *)
Definition os_makedirs (path : string) : M unit :=
  emit (EvMakedirs path) ;;;
  fun w =>
    match files w !! path with
    | Some _ => (Raise OSError, w)
    | None =>
        (Ok tt, {| files := files w; dirs := {[path]} ∪ dirs w;
                   stdin := stdin w; trace := trace w |})
    end.

(** ** The script *)

(** [class Colors] *)
Module Colors.
Definition BLUE : string := esc ++ "[1;34m".
Definition GREEN : string := esc ++ "[1;32m".
Definition YELLOW : string := esc ++ "[1;33m".
Definition RED : string := esc ++ "[1;31m".
Definition MAGENTA : string := esc ++ "[1;35m".
Definition CYAN : string := esc ++ "[1;36m".
Definition RESET : string := esc ++ "[0m".

Definition supports_color (env : Env) : bool :=
  if String.eqb (system env) "Windows"
  then bool_decide ("ANSICON" ∈ environ env)
       || bool_decide ("WT_SESSION" ∈ environ env)
  else isatty env.
End Colors.

Definition colorize (env : Env) (text color : string) : string :=
  if Colors.supports_color env then color ++ text ++ Colors.RESET else text.

(** The first component of what [get_os_info] returns; the script never
    uses the second. *)
Inductive os_type : Type := Linux | macOS | Windows.

Definition get_os_info (env : Env) : os_type :=
  if String.eqb (system env) "Darwin" then macOS
  else if String.eqb (system env) "Windows" then Windows
  else Linux.

Definition is_unix (os : os_type) : bool :=
  match os with
  | Windows => false
  | _ => true
  end.

Definition os_name (os : os_type) : string :=
  match os with
  | Linux => "Linux"
  | macOS => "macOS"
  | Windows => "Windows"
  end.

Definition banner : string :=
  Py.join newline
    [ "";
      "    ███╗   ███╗██╗   ██╗██╗  ████████╗██╗      █████╗  ██████╗ ███████╗███╗   ██╗████████╗";
      "    ████╗ ████║██║   ██║██║  ╚══██╔══╝██║     ██╔══██╗██╔════╝ ██╔════╝████╗  ██║╚══██╔══╝";
      "    ██╔████╔██║██║   ██║██║     ██║   ██║     ███████║██║  ███╗█████╗  ██╔██╗ ██║   ██║   ";
      "    ██║╚██╔╝██║██║   ██║██║     ██║   ██║     ██╔══██║██║   ██║██╔══╝  ██║╚██╗██║   ██║   ";
      "    ██║ ╚═╝ ██║╚██████╔╝███████╗██║   ███████╗██║  ██║╚██████╔╝███████╗██║ ╚████║   ██║   ";
      "    ╚═╝     ╚═╝ ╚═════╝ ╚══════╝╚═╝   ╚══════╝╚═╝  ╚═╝ ╚═════╝ ╚══════╝╚═╝  ╚═══╝   ╚═╝   ";
      "    ====================== NEXUS =====================================================";
      "    " ].

Definition print_banner (env : Env) : M unit :=
  print (colorize env banner Colors.CYAN) ;;;
  print (colorize env "Cross-platform setup script for Multi-Agent Nexus"
           Colors.CYAN) ;;;
  print ("This script will set up your multi-agent collaboration environment."
           ++ newline).

Definition check_dependencies (env : Env) : M (list string) :=
  let os := get_os_info env in
  print (colorize env "[1/5]" Colors.BLUE ++ " " ++ "Checking dependencies...") ;;;
  let missing_deps := [] in
  let missing_deps :=
    if negb (truthy (which env "jq"))
    then (missing_deps ++ ["jq"])%list else missing_deps in
  let missing_deps :=
    match os with
    | Linux =>
        if negb (truthy (which env "inotifywait"))
        then (missing_deps ++ ["inotify-tools"])%list else missing_deps
    | _ => missing_deps
    end in
  let missing_deps :=
    match os with
    | macOS =>
        if negb (truthy (which env "fswatch"))
        then (missing_deps ++ ["fswatch"])%list else missing_deps
    | _ => missing_deps
    end in
  ret missing_deps.

Definition is_CalledProcessError (e : exn) : bool :=
  match e with
  | CalledProcessError => true
  | _ => false
  end.

Definition print_deps (missing_deps : list string) : M unit :=
  for_each missing_deps (fun dep => print ("  - " ++ dep)).

(** The body of the [try] returns [Some b] where the source returns [b]
    from inside it, and [None] where control reaches the end of the
    [try]. *)
Definition install_dependencies (env : Env) (missing_deps : list string)
    : M bool :=
  let os := get_os_info env in
  match missing_deps with
  | [] =>
      print (colorize env "✓ All dependencies are installed." Colors.GREEN) ;;;
      ret true
  | _ =>
      print (colorize env
               ("Installing missing dependencies: " ++ Py.join ", " missing_deps)
               Colors.YELLOW) ;;;
      early <-
        try_except_only is_CalledProcessError
          (match os with
           | Linux =>
               if truthy (which env "apt-get") then
                 subprocess_run env ["sudo"; "apt-get"; "update"]
                   false false true ;;;
                 subprocess_run env
                   (["sudo"; "apt-get"; "install"; "-y"] ++ missing_deps)%list
                   false false true ;;;
                 ret None
               else if truthy (which env "yum") then
                 subprocess_run env
                   (["sudo"; "yum"; "install"; "-y"] ++ missing_deps)%list
                   false false true ;;;
                 ret None
               else
                 print (colorize env
                   "Unsupported Linux distribution. Please install dependencies manually:"
                   Colors.RED) ;;;
                 print_deps missing_deps ;;;
                 ret (Some false)
           | macOS =>
               if truthy (which env "brew") then
                 for_each missing_deps (fun dep =>
                   subprocess_run env ["brew"; "install"; dep]
                     false false true ;;;
                   ret tt) ;;;
                 ret None
               else
                 print (colorize env
                   "Homebrew not found. Please install it first:" Colors.RED) ;;;
                 print ("  /bin/bash -c " ++ dquote
                   ++ "$(curl -fsSL https://raw.githubusercontent.com/Homebrew/install/HEAD/install.sh)"
                   ++ dquote) ;;;
                 ret (Some false)
           | Windows =>
               if truthy (which env "choco") then
                 for_each missing_deps (fun dep =>
                   let win_pkg := dep in
                   let win_pkg :=
                     if String.eqb dep "jq" then "jq"
                     else if String.eqb dep "inotify-tools" then "fswatch"
                     else win_pkg in
                   subprocess_run env ["choco"; "install"; "-y"; win_pkg]
                     false false true ;;;
                   ret tt) ;;;
                 ret None
               else
                 print (colorize env
                   "Chocolatey not found. Please install it first:" Colors.RED) ;;;
                 print "  https://chocolatey.org/install" ;;;
                 print (newline ++ "Or install these dependencies manually:") ;;;
                 print "  - jq: https://stedolan.github.io/jq/download/" ;;;
                 (if bool_decide ("inotify-tools" ∈ missing_deps)
                  then print
                    "  - For file watching: https://github.com/thekid/inotify-win"
                  else ret tt) ;;;
                 ret (Some false)
           end)
          (print (colorize env
             "Error installing dependencies. Please install them manually:"
             Colors.RED) ;;;
           print_deps missing_deps ;;;
           ret (Some false)) ;;
      match early with
      | Some b => ret b
      | None =>
          print (colorize env "✓ Dependencies installed successfully."
                   Colors.GREEN) ;;;
          ret true
      end
  end.

Definition setup_directories (env : Env) : M unit :=
  print (colorize env "[2/5]" Colors.BLUE ++ " "
           ++ "Setting up directory structure...") ;;;
  os_makedirs "logs" ;;;
  print (colorize env "✓ Directory structure set up." Colors.GREEN).

Definition create_if_absent (env : Env) (path content : string) : M unit :=
  present <- path_exists path ;;
  if negb present then create_file env path content else ret tt.

Definition initialize_files (env : Env) : M unit :=
  print (colorize env "[3/5]" Colors.BLUE ++ " "
           ++ "Initializing log files...") ;;;
  create_if_absent env "events.log" "" ;;;
  create_if_absent env "agent_status.json" "[]" ;;;
  create_if_absent env "communication.md" ("# Communication Log" ++ newline) ;;;
  create_if_absent env "archive.md" ("# Archived Communications" ++ newline) ;;;
  print (colorize env "✓ Log files initialized." Colors.GREEN).

Definition make_scripts_executable (env : Env) : M unit :=
  print (colorize env "[4/5]" Colors.BLUE ++ " "
           ++ "Making scripts executable...") ;;;
  let os := get_os_info env in
  (if is_unix os
   then for_each (glob_scripts env) (fun script => os_chmod env script 493)
   else ret tt) ;;;
  print (colorize env "✓ Scripts are now executable." Colors.GREEN).

Definition configure_agent (env : Env) : M (string * string * string) :=
  print (colorize env "[5/5]" Colors.BLUE ++ " "
           ++ "Configuring your agent...") ;;;
  agent_id <- input "Enter your agent ID (e.g., agent1): " ;;
  agent_type <- input "Enter your agent type (e.g., llm, coding, research): " ;;
  description <- input "Enter a brief agent description: " ;;
  ret (agent_id, agent_type, description).

(** ["bash.exe" if shutil.which("bash.exe") else "sh.exe"] *)
Definition windows_shell (env : Env) : string :=
  if truthy (which env "bash.exe") then "bash.exe" else "sh.exe".

Definition register_agent (env : Env) (agent_id agent_type description : string)
    : M unit :=
  let os := get_os_info env in
  match os with
  | Windows =>
      let shell_cmd := windows_shell env in
      subprocess_run env
        [shell_cmd; "scripts/agent_status.sh"; "register";
         agent_id; agent_type; description] false false false ;;;
      subprocess_run env
        [shell_cmd; "scripts/agent_status.sh"; "status"; agent_id; "active";
         "Starting up and ready for collaboration"] false false false ;;;
      ret tt
  | _ =>
      subprocess_run env
        ["./scripts/agent_status.sh"; "register";
         agent_id; agent_type; description] false false false ;;;
      subprocess_run env
        ["./scripts/agent_status.sh"; "status"; agent_id; "active";
         "Starting up and ready for collaboration"] false false false ;;;
      ret tt
  end.

(** *** [json.dumps] of a string, for ASCII text *)

Definition hex_digit (n : nat) : string :=
  match String.get n "0123456789abcdef" with
  | Some c => String c ""
  | None => "0"
  end.

Definition json_escape_char (c : ascii) : string :=
  let n := nat_of_ascii c in
  if (n =? 34)%nat then backslash ++ dquote
  else if (n =? 92)%nat then backslash ++ backslash
  else if (n =? 10)%nat then backslash ++ "n"
  else if (n =? 13)%nat then backslash ++ "r"
  else if (n =? 9)%nat then backslash ++ "t"
  else if (n =? 8)%nat then backslash ++ "b"
  else if (n =? 12)%nat then backslash ++ "f"
  else if (32 <=? n)%nat && (n <=? 126)%nat then String c ""
  else backslash ++ "u00" ++ hex_digit (n / 16) ++ hex_digit (n mod 16).

Fixpoint json_escape (s : string) : string :=
  match s with
  | EmptyString => ""
  | String c s' => json_escape_char c ++ json_escape s'
  end.

Definition json_string (s : string) : string :=
  dquote ++ json_escape s ++ dquote.

(** [json.dumps({"from": agent_id, "to": "all", "message": message})] *)
Definition json_message (agent_id message : string) : string :=
  "{" ++ json_string "from" ++ ": " ++ json_string agent_id ++ ", "
      ++ json_string "to" ++ ": " ++ json_string "all" ++ ", "
      ++ json_string "message" ++ ": " ++ json_string message ++ "}".

Definition send_message (env : Env) (agent_id agent_type message : string)
    : M unit :=
  let os := get_os_info env in
  let json_data := json_message agent_id message in
  match os with
  | Windows =>
      let shell_cmd := windows_shell env in
      subprocess_run env [shell_cmd; "scripts/log_event.sh"; "message"; json_data]
        false false false ;;;
      ret tt
  | _ =>
      subprocess_run env ["./scripts/log_event.sh"; "message"; json_data]
        false false false ;;;
      ret tt
  end.

Definition generate_snapshot (env : Env) : M unit :=
  let os := get_os_info env in
  match os with
  | Windows =>
      let shell_cmd := windows_shell env in
      subprocess_run env [shell_cmd; "scripts/generate_snapshot.sh"]
        false false false ;;;
      ret tt
  | _ =>
      subprocess_run env ["./scripts/generate_snapshot.sh"]
        false false false ;;;
      ret tt
  end.

(** *** The monitors *)

Definition advisory : string :=
  "NOTE: Install 'screen' or 'tmux' for better background process management.".

Definition start_monitoring (env : Env) : M bool :=
  print (colorize env (newline ++ "Starting system services...")
           Colors.MAGENTA) ;;;
  let os := get_os_info env in
  (if is_unix os
   then try_except
          (subprocess_run env ["pkill"; "-f"; "scripts/watch_events.sh"]
             false true false ;;;
           ret tt)
          pass
   else ret tt) ;;;
  match os with
  | Windows =>
      print "Starting event monitoring in a new window..." ;;;
      if truthy (which env "start") then
        subprocess_Popen env ["start"; "bash.exe"; "scripts/watch_events.sh"]
          true false
      else
        print (colorize env "Warning: Unable to start monitoring automatically."
                 Colors.YELLOW) ;;;
        print "Please open a new terminal and run: bash.exe scripts/watch_events.sh"
  | _ =>
      let terminal_options := [] in
      terminal_options <-
        (if truthy (which env "screen") then
           print "Starting event monitor in screen session..." ;;;
           subprocess_run env
             ["screen"; "-dmS"; "event_monitor"; "./scripts/watch_events.sh"]
             false false false ;;;
           subprocess_run env
             ["screen"; "-dmS"; "agent_monitor"; "watch"; "-n"; "10";
              "./scripts/agent_status.sh"; "list"]
             false false false ;;;
           ret (terminal_options ++ ["screen"])%list
         else if truthy (which env "tmux") then
           print "Starting event monitor in tmux session..." ;;;
           subprocess_run env
             ["tmux"; "new-session"; "-d"; "-s"; "event_monitor";
              "./scripts/watch_events.sh"]
             false false false ;;;
           subprocess_run env
             ["tmux"; "new-session"; "-d"; "-s"; "agent_monitor";
              "watch -n 10 ./scripts/agent_status.sh list"]
             false false false ;;;
           ret (terminal_options ++ ["tmux"])%list
         else
           print "Starting event monitor in background..." ;;;
           subprocess_Popen env ["./scripts/watch_events.sh"] false true ;;;
           ret terminal_options) ;;
      match terminal_options with
      | [] => print (colorize env advisory Colors.YELLOW)
      | _ => ret tt
      end
  end ;;;
  ret true.

(** *** The heartbeat *)

(** [f".heartbeat_{agent_id}.pid"] *)
Definition heartbeat_pid_file (agent_id : string) : string :=
  ".heartbeat_" ++ agent_id ++ ".pid".
Arguments heartbeat_pid_file : simpl never.

(** Lines 309-321 of [start_heartbeat], "Clean up any existing heartbeat
    process": what the specification calls [terminate_and_clear]. *)
Definition terminate_and_clear (env : Env) (agent_id : string) : M unit :=
  let heartbeat_pid_file := heartbeat_pid_file agent_id in
  present <- path_exists heartbeat_pid_file ;;
  if present then
    try_except
      (text <- read_text heartbeat_pid_file ;;
       pid <- lift (Py.int (strip text)) ;;
       try_except (os_kill env pid) pass ;;;
       os_remove heartbeat_pid_file)
      pass
  else ret tt.

(** One pass through the body of [while True] in [heartbeat_thread]. *)
Definition heartbeat_tick (env : Env) (os : os_type) (agent_id : string)
    : M unit :=
  try_except
    (match os with
     | Windows =>
         let shell_cmd := windows_shell env in
         subprocess_run env
           [shell_cmd; "scripts/agent_status.sh"; "heartbeat"; agent_id]
           true true false ;;;
         ret tt
     | _ =>
         subprocess_run env
           ["./scripts/agent_status.sh"; "heartbeat"; agent_id]
           true true false ;;;
         ret tt
     end)
    pass ;;;
  time_sleep 60.

(** [heartbeat_thread], observed for [ticks] passes of its loop.  The
    result is [Ok] while the loop is still running after that many passes
    and [Raise] when an exception ended the thread before. *)
Fixpoint heartbeat_thread (env : Env) (os : os_type) (agent_id : string)
    (ticks : nat) : M unit :=
  match ticks with
  | O => ret tt
  | S n =>
      heartbeat_tick env os agent_id ;;;
      heartbeat_thread env os agent_id n
  end.

Definition start_heartbeat (env : Env) (agent_id : string) : M bool :=
  let os := get_os_info env in
  terminate_and_clear env agent_id ;;;
  print "Starting automatic heartbeat..." ;;;
  emit (EvThread true "heartbeat_thread" agent_id) ;;;
  emit (EvAtexit "Heartbeat stopped.") ;;;
  ret true.

(** *** The quick reference and the main sequence *)

Definition quoted (s : string) : string := dquote ++ s ++ dquote.

Definition show_quick_reference (env : Env) (agent_id : string) : M unit :=
  let os := get_os_info env in
  print (colorize env (newline ++ "=== Quick Reference Commands ===")
           Colors.YELLOW) ;;;
  let cmd_prefix := "" in
  let cmd_prefix :=
    match os with
    | Windows => windows_shell env ++ " "
    | _ => cmd_prefix
    end in
  let msg_cmd :=
    cmd_prefix ++ "scripts/log_event.sh message '{"
      ++ quoted "from" ++ ":" ++ quoted agent_id ++ ","
      ++ quoted "to" ++ ":" ++ quoted "all" ++ ","
      ++ quoted "message" ++ ":" ++ quoted "Hello" ++ "}'" in
  print ("  Send message:     " ++ colorize env msg_cmd Colors.CYAN) ;;;
  let prop_cmd :=
    cmd_prefix ++ "scripts/log_event.sh proposal '{"
      ++ quoted "from" ++ ":" ++ quoted agent_id ++ ","
      ++ quoted "component" ++ ":" ++ quoted "X" ++ ","
      ++ quoted "description" ++ ":" ++ quoted "Y" ++ "}'" in
  print ("  Make proposal:    " ++ colorize env prop_cmd Colors.CYAN) ;;;
  let status_cmd :=
    cmd_prefix ++ "scripts/agent_status.sh status " ++ agent_id ++ " active "
      ++ quoted "Working on task X" in
  print ("  Update status:    " ++ colorize env status_cmd Colors.CYAN) ;;;
  print ("  View messages:    "
           ++ colorize env "cat communication.md" Colors.CYAN) ;;;
  let agents_cmd := cmd_prefix ++ "scripts/agent_status.sh list" in
  print ("  List agents:      " ++ colorize env agents_cmd Colors.CYAN) ;;;
  let snapshot_cmd := cmd_prefix ++ "scripts/generate_snapshot.sh" in
  print ("  Generate snapshot: " ++ colorize env snapshot_cmd Colors.CYAN
           ++ newline).

(** Everything [main] does once the dependencies are there. *)
Definition bring_up (env : Env) : M Z :=
  setup_directories env ;;;
  initialize_files env ;;;
  make_scripts_executable env ;;;
  cfg <- configure_agent env ;;
  let '(agent_id, agent_type, description) := cfg in
  start_monitoring env ;;;
  register_agent env agent_id agent_type description ;;;
  start_heartbeat env agent_id ;;;
  send_message env agent_id agent_type
    (agent_type ++ " agent '" ++ agent_id ++ "' has joined the collaboration.") ;;;
  generate_snapshot env ;;;
  print (colorize env (newline ++ "✓ Setup complete!") Colors.GREEN) ;;;
  print ("Your agent ID: " ++ colorize env agent_id Colors.CYAN
           ++ " is registered and active.") ;;;
  print "Event monitoring is running in the background." ;;;
  print ("You can now begin collaborating with other agents." ++ newline) ;;;
  show_quick_reference env agent_id ;;;
  print (colorize env ("You're all set! Happy collaborating!" ++ newline)
           Colors.GREEN) ;;;
  ret 0.

(** [main]: its result is the status [sys.exit] is called with; an
    exception that leaves [main] ends the script with a traceback. *)
Definition main (env : Env) : M Z :=
  print_banner env ;;;
  let os := get_os_info env in
  print ("Detected operating system: "
           ++ colorize env (os_name os) Colors.CYAN ++ newline) ;;;
  missing_deps <- check_dependencies env ;;
  abort <-
    match missing_deps with
    | [] => ret false
    | _ => installed <- install_dependencies env missing_deps ;;
           ret (negb installed)
    end ;;
  if abort then
    print (colorize env
             (newline ++ "Setup cannot continue without required dependencies.")
             Colors.RED) ;;;
    print "Please install them manually and run this script again." ;;;
    ret 1
  else bring_up env.

(** ** Running the model *)

(** The effects [m] adds to the trace of [w]. *)
Definition effects {A : Type} (m : M A) (w : World) : list event :=
  drop (List.length (trace w)) (trace (snd (m w))).

Definition empty_world : World :=
  {| files := ∅; dirs := ∅; stdin := []; trace := [] |}.

Definition add_events (w : World) (evs : list event) : World :=
  {| files := files w; dirs := dirs w; stdin := stdin w;
     trace := (trace w ++ evs)%list |}.

(** ** Observations the properties are stated with *)

(** The PID record of an agent's heartbeat is the file
    [heartbeat_pid_file agent_id]. *)
Definition has_record (w : World) (agent_id : string) : bool :=
  bool_decide (is_Some (files w !! heartbeat_pid_file agent_id)).

(** The launch strategies, with the specification's names, read off the
    first command that launches a monitor. *)
Inductive strategy : Type :=
| foreground_window
| multiplexer_screen
| multiplexer_tmux
| detached_background.

Definition strategy_of_event (e : event) : option strategy :=
  match e with
  | EvRun (prog :: _) _ _ _ =>
      if String.eqb prog "screen" then Some multiplexer_screen
      else if String.eqb prog "tmux" then Some multiplexer_tmux
      else None
  | EvPopen _ true _ => Some foreground_window
  | EvPopen _ false _ => Some detached_background
  | _ => None
  end.

Definition launch_strategy (evs : list event) : option strategy :=
  head (omap strategy_of_event evs).

(** The name and the command of the session a multiplexer is asked to
    create: [screen -dmS NAME CMD...] and [tmux new-session -d -s NAME CMD]. *)
Definition session_of_event (e : event) : option (string * string) :=
  match e with
  | EvRun ("screen" :: "-dmS" :: name :: cmd) _ _ _ =>
      Some (name, Py.join " " cmd)
  | EvRun ("tmux" :: "new-session" :: "-d" :: "-s" :: name :: cmd) _ _ _ =>
      Some (name, Py.join " " cmd)
  | _ => None
  end.

Definition sessions (evs : list event) : list (string * string) :=
  omap session_of_event evs.

(** The program [prog] can be started whenever it is asked for. *)
Definition startable (env : Env) (prog : string) : Prop :=
  forall (t : nat) (args : list string), spawn env t (prog :: args) <> NotStarted.

(** The command a heartbeat tick runs. *)
Definition report_argv (env : Env) (os : os_type) (agent_id : string)
    : list string :=
  match os with
  | Windows =>
      [windows_shell env; "scripts/agent_status.sh"; "heartbeat"; agent_id]
  | _ => ["./scripts/agent_status.sh"; "heartbeat"; agent_id]
  end.

Definition report_attempt (env : Env) (os : os_type) (agent_id : string)
    : event :=
  EvRun (report_argv env os agent_id) true true false.

(** The effects of [ticks] passes of the heartbeat loop. *)
Fixpoint tick_events (env : Env) (os : os_type) (agent_id : string)
    (ticks : nat) : list event :=
  match ticks with
  | O => []
  | S n =>
      report_attempt env os agent_id :: EvSleep 60
        :: tick_events env os agent_id n
  end.

(** Seconds slept in a run of effects: the time the loop's clock shows when
    only sleeping takes time. *)
Fixpoint elapsed (evs : list event) : Z :=
  match evs with
  | [] => 0
  | EvSleep s :: rest => s + elapsed rest
  | _ :: rest => elapsed rest
  end.

Definition starts_thread (e : event) : bool :=
  match e with
  | EvThread _ _ _ => true
  | _ => false
  end.

(** The report command fails at time [t]: it cannot be started, or it
    exits with a non-zero status. *)
Definition report_fails (env : Env) (os : os_type) (agent_id : string)
    (t : nat) : Prop :=
  match spawn env t (report_argv env os agent_id) with
  | NotStarted => True
  | Exited code => code <> 0
  end.

(** What [start_heartbeat] does after the clean-up. *)
Definition heartbeat_start_events (agent_id : string) : list event :=
  [EvPrint "Starting automatic heartbeat...";
   EvThread true "heartbeat_thread" agent_id;
   EvAtexit "Heartbeat stopped."].

(** How [start_monitoring] begins on Linux and macOS. *)
Definition services_banner (env : Env) : event :=
  EvPrint (colorize env (newline ++ "Starting system services...")
             Colors.MAGENTA).

Definition kill_stale : event :=
  EvRun ["pkill"; "-f"; "scripts/watch_events.sh"] false true false.

(** [m] can only return values that satisfy [P]. *)
Definition returns_only {A : Type} (m : M A) (P : A -> Prop) : Prop :=
  forall (w : World) (a : A), fst (m w) = Ok a -> P a.

(** [m] leaves the files, the directories and the pending input alone: all
    it does to the world is to append effects, and the exceptions it may
    raise are among [E]. *)
Definition appends {A : Type} (E : exn -> Prop) (m : M A) : Prop :=
  forall w : World, exists (r : result A) (l : list event),
    m w = (r, add_events w l)
    /\ match r with
       | Ok _ => True
       | Raise e => E e
       end.

(** The only exception a spawned command brings: [OSError], on a host where
    some command cannot be started. *)
Definition spawn_failure (env : Env) (e : exn) : Prop :=
  e = OSError
  /\ exists (t : nat) (argv : list string), spawn env t argv = NotStarted.

(** Every command can be started, at any time. *)
Definition all_startable (env : Env) : Prop :=
  forall (t : nat) (argv : list string), spawn env t argv <> NotStarted.

Definition is_spawn (e : event) : bool :=
  match e with
  | EvRun _ _ _ _ => true
  | EvPopen _ _ _ => true
  | _ => false
  end.

Definition is_print_of (line : string) (e : event) : bool :=
  match e with
  | EvPrint l => String.eqb l line
  | _ => false
  end.

(** The package [choco] is asked for in place of a dependency. *)
Definition windows_package (dep : string) : string :=
  if String.eqb dep "inotify-tools" then "fswatch" else dep.

(** The command that installs a dependency through [choco]. *)
Definition choco_install (dep : string) : event :=
  EvRun ["choco"; "install"; "-y"; windows_package dep] false false true.

(** The platform's package manager, as [install_dependencies] looks for
    it. *)
Definition has_package_manager (env : Env) : bool :=
  match get_os_info env with
  | Linux => truthy (which env "apt-get") || truthy (which env "yum")
  | macOS => truthy (which env "brew")
  | Windows => truthy (which env "choco")
  end.

(** The four log files with the content [initialize_files] gives them. *)
Definition log_files : list (string * string) :=
  [("events.log", "");
   ("agent_status.json", "[]");
   ("communication.md", "# Communication Log" ++ newline);
   ("archive.md", "# Archived Communications" ++ newline)].

(** [os.path.exists] as a function of the world. *)
Definition exists_in (w : World) (path : string) : bool :=
  bool_decide (is_Some (files w !! path)) || bool_decide (path ∈ dirs w).

Definition is_run (e : event) : bool :=
  match e with
  | EvRun _ _ _ _ => true
  | _ => false
  end.

Definition is_create (e : event) : bool :=
  match e with
  | EvCreate _ _ => true
  | _ => false
  end.

(** Every character of [s] passes the test [p]. *)
Fixpoint all_chars (p : ascii -> bool) (s : string) : bool :=
  match s with
  | EmptyString => true
  | String c s' => p c && all_chars p s'
  end.

(** Printable ASCII, from the space to the tilde. *)
Definition printable (c : ascii) : bool :=
  let n := nat_of_ascii c in (32 <=? n)%nat && (n <=? 126)%nat.

(** Printable ASCII other than the double quote and the backslash. *)
Definition plain (c : ascii) : bool :=
  let n := nat_of_ascii c in
  printable c && negb (n =? 34)%nat && negb (n =? 92)%nat.

(** How the script calls [agent_status.sh] on this host. *)
Definition agent_status_command (env : Env) : list string :=
  match get_os_info env with
  | Windows => [windows_shell env; "scripts/agent_status.sh"]
  | _ => ["./scripts/agent_status.sh"]
  end.

(** From [w] to [w'] nothing is lost and only log files are gained: the
    directories and the pending input are the same, every file of [w] has
    its content in [w'], and a file of [w'] that [w] does not have is one
    of the log files with its initial content. *)
Definition keeps_files (w w' : World) : Prop :=
  dirs w' = dirs w
  /\ stdin w' = stdin w
  /\ (forall q text : string,
        files w !! q = Some text -> files w' !! q = Some text)
  /\ (forall q : string,
        files w !! q = None -> is_Some (files w' !! q) ->
        exists content : string,
          (q, content) ∈ log_files /\ files w' !! q = Some content).

(** [m] gains at most log files, and either returns with every path of
    [paths] in existence or ends in the [OSError] of a refused write. *)
Definition provides (env : Env) (paths : list string) (m : M unit) : Prop :=
  forall w : World, exists (r : result unit) (w' : World),
    m w = (r, w')
    /\ keeps_files w w'
    /\ ((r = Ok tt /\ forall path : string,
                        path ∈ paths -> exists_in w' path = true)
        \/ (r = Raise OSError
            /\ exists (t : nat) (path : string), writable env t path = false)).

(** The agent's PID record does not turn the clean-up against the script:
    when it holds a PID, SIGTERM to that PID does not reach the script
    itself. *)
Definition record_spares_script (env : Env) (agent_id : string) (w : World)
    : Prop :=
  forall (text : string) (pid : Z),
    files w !! heartbeat_pid_file agent_id = Some text ->
    Py.int (strip text) = Ok pid ->
    reaches_script env pid = false.

(** The trace of [make_scripts_executable] when no [chmod] is refused. *)
Definition chmod_trace (env : Env) : list event :=
  ([EvPrint (colorize env "[4/5]" Colors.BLUE ++ " "
               ++ "Making scripts executable...")]
   ++ (if is_unix (get_os_info env)
       then map (fun script => EvChmod script 493) (glob_scripts env)
       else [])
   ++ [EvPrint (colorize env "✓ Scripts are now executable." Colors.GREEN)])%list.

(** The sessions that come to exist: those whose creating command, issued
    at its time in the run, started and exited with status 0.  [t] is the
    time of the first of the effects [evs]. *)
Fixpoint sessions_created (env : Env) (t : nat) (evs : list event)
    : list (string * string) :=
  match evs with
  | [] => []
  | e :: rest =>
      match e, session_of_event e with
      | EvRun argv _ _ _, Some session =>
          match spawn env t argv with
          | Exited 0 => session :: sessions_created env (S t) rest
          | _ => sessions_created env (S t) rest
          end
      | _, _ => sessions_created env (S t) rest
      end
  end.

(** The world after [create_if_absent path content]. *)
Definition created (path content : string) (w : World) : World :=
  if exists_in w path then w
  else {| files := <[path := content]> (files w); dirs := dirs w;
          stdin := stdin w; trace := (trace w ++ [EvCreate path content])%list |}.

(** [m] ends normally from every world. *)
Definition never_raises {A : Type} (m : M A) : Prop :=
  forall w : World, exists (a : A) (w' : World), m w = (Ok a, w').

(** [m] ends normally with the value [v] from every world. *)
Definition always_returns {A : Type} (m : M A) (v : A) : Prop :=
  forall w : World, exists w' : World, m w = (Ok v, w').

(** *** Concrete hosts and working directories *)

Definition on_path (tools : list string) (name : string) : option string :=
  if bool_decide (name ∈ tools) then Some ("/usr/bin/" ++ name) else None.

(** A Linux host with the given tools on the PATH on which every command
    starts and exits with status [code]. *)
Definition host_exiting (tools : list string) (code : Z) : Env :=
  {| system := "Linux"; environ := []; isatty := false;
     which := on_path tools;
     spawn := fun _ _ => Exited code;
     signal_ok := fun _ _ => false;
     getpid := 1000; getpgrp := 1000;
     writable := fun _ _ => true;
     chmod_ok := fun _ _ => true;
     glob_scripts := ["scripts/agent_status.sh"] |}.

(** A Windows host with [choco] on which every command exits with 0. *)
Definition choco_host : Env :=
  {| system := "Windows"; environ := []; isatty := false;
     which := on_path ["choco"];
     spawn := fun _ _ => Exited 0;
     signal_ok := fun _ _ => false;
     getpid := 1000; getpgrp := 1000;
     writable := fun _ _ => true;
     chmod_ok := fun _ _ => true;
     glob_scripts := [] |}.

(** A Linux host with the given tools on the PATH, on which every command
    that is not in [missing] starts and exits with status 0 and no signal
    can be delivered. *)
Definition linux_host (tools : list string) (missing : list (list string))
    : Env :=
  {| system := "Linux"; environ := []; isatty := false;
     which := on_path tools;
     spawn := fun _ argv =>
       if bool_decide (argv ∈ missing) then NotStarted else Exited 0;
     signal_ok := fun _ _ => false;
     getpid := 1000; getpgrp := 1000;
     writable := fun _ _ => true;
     chmod_ok := fun _ _ => true;
     glob_scripts := ["scripts/agent_status.sh"; "scripts/watch_events.sh"] |}.

(** A Windows host without [start] on the PATH. *)
Definition windows_host : Env :=
  {| system := "Windows"; environ := []; isatty := false;
     which := on_path ["jq"; "bash.exe"];
     spawn := fun _ _ => Exited 0;
     signal_ok := fun _ _ => false;
     getpid := 1000; getpgrp := 1000;
     writable := fun _ _ => true;
     chmod_ok := fun _ _ => true;
     glob_scripts := [] |}.

(** A host on which no command can be started before logical time [t0],
    and every command starts and exits with status 0 from then on. *)
Definition flaky_host (t0 : nat) : Env :=
  {| system := "Linux"; environ := []; isatty := false;
     which := on_path [];
     spawn := fun t _ => if (t <? t0)%nat then NotStarted else Exited 0;
     signal_ok := fun _ _ => false;
     getpid := 1000; getpgrp := 1000;
     writable := fun _ _ => true;
     chmod_ok := fun _ _ => true;
     glob_scripts := [] |}.

Definition world_with (pid_text : option string) (typed : list string) : World :=
  {| files :=
       match pid_text with
       | Some text => {[ heartbeat_pid_file "agent7" := text ]}
       | None => ∅
       end;
     dirs := ∅; stdin := typed; trace := [] |}.

(** * Properties *)

Example int_plain : Py.int "4242" = Ok 4242.
Proof. reflexivity. Qed.

Example int_newline : Py.int (" 17" ++ newline) = Ok 17.
Proof. reflexivity. Qed.

Example int_underscore : Py.int "1_000" = Ok 1000.
Proof. reflexivity. Qed.

Example int_negative : Py.int "-5" = Ok (-5).
Proof. reflexivity. Qed.

Example int_garbage : Py.int "12x" = Raise ValueError.
Proof. reflexivity. Qed.

Example int_empty : Py.int "" = Raise ValueError.
Proof. reflexivity. Qed.


(** ** Reasoning about runs *)

Lemma add_events_nil (w : World) : add_events w [] = w.
Proof. destruct w; unfold add_events; cbn. by rewrite app_nil_r. Qed.

Lemma add_events_app (w : World) (l k : list event) :
  add_events (add_events w l) k = add_events w (l ++ k)%list.
Proof. unfold add_events; cbn. by rewrite app_assoc. Qed.

(** Unfold the monad and the primitive effects down to worlds. *)
Ltac unfold_effects :=
  unfold print, time_sleep, subprocess_run, subprocess_Popen, os_kill,
    os_remove, path_exists, read_text, create_file, os_chmod, os_makedirs, input,
    now, emit, lift, pass, try_except, try_except_only, raise, ret, bind.

(** Bring a world's trace to the shape [trace w ++ l]. *)
Ltac flatten_trace :=
  unfold add_events; cbn; rewrite <- ?app_assoc; cbn.

(** When a run ends in [add_events w l], its effects are [l]. *)
Lemma effects_add_events {A : Type} (m : M A) (w : World) (r : result A)
    (l : list event) :
  m w = (r, add_events w l) -> effects m w = l.
Proof.
  intros Hrun. unfold effects. rewrite Hrun. cbn. apply drop_app_length.
Qed.

(** *** The heartbeat loop *)

Section HeartbeatLoop.

Variable env : Env.
Variable os : os_type.
Variable agent_id : string.

(** One pass: whatever the report command does, the pass ends normally
    after the report attempt and the sleep. *)
Lemma heartbeat_tick_run (w : World) :
  heartbeat_tick env os agent_id w
  = (Ok tt, add_events w [report_attempt env os agent_id; EvSleep 60]).
Proof.
  unfold heartbeat_tick, report_attempt, report_argv. unfold_effects.
  destruct os; cbn;
    match goal with
    | |- context [spawn env ?t ?argv] => destruct (spawn env t argv)
    end; flatten_trace; reflexivity.
Qed.

Lemma heartbeat_thread_run (ticks : nat) (w : World) :
  heartbeat_thread env os agent_id ticks w
  = (Ok tt, add_events w (tick_events env os agent_id ticks)).
Proof.
  revert w. induction ticks as [|n IH]; intros w; cbn.
  - by rewrite add_events_nil.
  - unfold bind. rewrite heartbeat_tick_run, IH, add_events_app. reflexivity.
Qed.

Lemma heartbeat_thread_effects (ticks : nat) (w : World) :
  effects (heartbeat_thread env os agent_id ticks) w
  = tick_events env os agent_id ticks.
Proof. exact (effects_add_events _ _ _ _ (heartbeat_thread_run ticks w)). Qed.

Lemma tick_events_take (k ticks : nat) :
  (k <= ticks)%nat ->
  take (2 * k) (tick_events env os agent_id ticks)
  = tick_events env os agent_id k.
Proof.
  revert ticks. induction k as [|k IH]; intros ticks Hle; [done |].
  destruct ticks as [|n]; [lia |].
  replace (2 * S k)%nat with (S (S (2 * k))) by lia. cbn [tick_events take].
  rewrite IH by lia. reflexivity.
Qed.

Lemma tick_events_elapsed (k : nat) :
  elapsed (tick_events env os agent_id k) = 60 * Z.of_nat k.
Proof.
  induction k as [|k IH]; [done |].
  cbn [tick_events]. unfold report_attempt. cbn [elapsed]. lia.
Qed.

Lemma tick_events_lookup (k ticks : nat) :
  (k < ticks)%nat ->
  tick_events env os agent_id ticks !! (2 * k)%nat
    = Some (report_attempt env os agent_id)
  /\ tick_events env os agent_id ticks !! S (2 * k) = Some (EvSleep 60).
Proof.
  revert ticks. induction k as [|k IH]; intros ticks Hlt;
    (destruct ticks as [|n]; [lia |]).
  - done.
  - replace (2 * S k)%nat with (S (S (2 * k))) by lia. cbn [tick_events].
    apply IH. lia.
Qed.

(** C5.  Let the heartbeat report fail [N] times in a row from the start of
    the thread.  The loop is still running after those [N] passes and after
    any number [more] of further ones: no exception ends it, every pass
    attempts the report again and every pass sleeps 60 seconds, the same
    interval whatever happened before (no backoff, no cap on retries). *)
Theorem heartbeat_loop_survives_failures (N more : nat) (w : World) :
  (forall k : nat, (k < N)%nat ->
     report_fails env os agent_id (List.length (trace w) + 2 * k)) ->
  fst (heartbeat_thread env os agent_id (N + more) w) = Ok tt
  /\ effects (heartbeat_thread env os agent_id (N + more)) w
     = tick_events env os agent_id (N + more)
  /\ forall k : nat, (k < N + more)%nat ->
       effects (heartbeat_thread env os agent_id (N + more)) w !! (2 * k)%nat
         = Some (report_attempt env os agent_id)
       /\ effects (heartbeat_thread env os agent_id (N + more)) w !! S (2 * k)
         = Some (EvSleep 60).
Proof.
  intros _. rewrite heartbeat_thread_effects, heartbeat_thread_run.
  split; [done |]. split; [done |].
  intros k Hk. by apply tick_events_lookup.
Qed.

(** C10.  The loop attempts its first report at once, before any sleep, and
    each sleep follows a report attempt: the report number [k] (counting
    from 0) is attempted when exactly [k] sleeps of 60 seconds have gone
    by, that is at time zero and then once per interval. *)
Theorem heartbeat_reports_before_sleeping (ticks : nat) (w : World) :
  head (effects (heartbeat_thread env os agent_id (S ticks)) w)
    = Some (report_attempt env os agent_id)
  /\ forall k : nat, (k <= ticks)%nat ->
       effects (heartbeat_thread env os agent_id (S ticks)) w !! (2 * k)%nat
         = Some (report_attempt env os agent_id)
       /\ elapsed
            (take (2 * k) (effects (heartbeat_thread env os agent_id (S ticks)) w))
          = 60 * Z.of_nat k
       /\ effects (heartbeat_thread env os agent_id (S ticks)) w !! S (2 * k)
          = Some (EvSleep 60).
Proof.
  rewrite heartbeat_thread_effects.
  split; [done |]. intros k Hk.
  destruct (tick_events_lookup k (S ticks)) as [Hrep Hsleep]; [lia |].
  split; [exact Hrep |]. split; [| exact Hsleep].
  rewrite tick_events_take by lia. apply tick_events_elapsed.
Qed.

End HeartbeatLoop.

Lemma heartbeat_loop_survives_failures_witness :
  (forall k : nat, (k < 3)%nat ->
     report_fails (flaky_host 6) Linux "agent7"
       (List.length (trace empty_world) + 2 * k))
  /\ fst (heartbeat_thread (flaky_host 6) Linux "agent7" (3 + 1) empty_world)
     = Ok tt
  /\ effects (heartbeat_thread (flaky_host 6) Linux "agent7" (3 + 1)) empty_world
       !! 6%nat
     = Some (EvRun ["./scripts/agent_status.sh"; "heartbeat"; "agent7"]
               true true false).
Proof.
  assert (Hfail : forall k : nat, (k < 3)%nat ->
            report_fails (flaky_host 6) Linux "agent7"
              (List.length (trace empty_world) + 2 * k)).
  { intros k Hk. destruct k as [|[|[|k]]]; [exact I | exact I | exact I | lia]. }
  split; [exact Hfail |].
  destruct (heartbeat_loop_survives_failures (flaky_host 6) Linux "agent7" 3 1
              empty_world Hfail) as (Hok & _ & Hlookup).
  split; [exact Hok |].
  exact (proj1 (Hlookup 3%nat ltac:(lia))).
Defined.

(** Three reports that cannot be started and then one that can: the fourth
    attempt is made all the same, after three sleeps of 60 seconds. *)
Example heartbeat_retries_after_three_failures :
  spawn (flaky_host 6) 4 ["./scripts/agent_status.sh"; "heartbeat"; "agent7"]
    = NotStarted
  /\ spawn (flaky_host 6) 6 ["./scripts/agent_status.sh"; "heartbeat"; "agent7"]
      = Exited 0
  /\ effects (heartbeat_thread (flaky_host 6) Linux "agent7" 4) empty_world
      = [EvRun ["./scripts/agent_status.sh"; "heartbeat"; "agent7"] true true false;
         EvSleep 60;
         EvRun ["./scripts/agent_status.sh"; "heartbeat"; "agent7"] true true false;
         EvSleep 60;
         EvRun ["./scripts/agent_status.sh"; "heartbeat"; "agent7"] true true false;
         EvSleep 60;
         EvRun ["./scripts/agent_status.sh"; "heartbeat"; "agent7"] true true false;
         EvSleep 60].
Proof. repeat split. Qed.

(** *** The PID-file clean-up *)

(** No file, no directory of that name, or a directory: nothing happens. *)
Lemma terminate_and_clear_absent (env : Env) (agent_id : string) (w : World) :
  files w !! heartbeat_pid_file agent_id = None ->
  terminate_and_clear env agent_id w = (Ok tt, w).
Proof.
  intros Hnone. unfold terminate_and_clear. unfold_effects. cbn.
  rewrite Hnone. cbn.
  destruct (bool_decide (heartbeat_pid_file agent_id ∈ dirs w)); cbn;
    rewrite ?Hnone; reflexivity.
Qed.

Lemma int_of_digits_raises (d : string) (e : exn) :
  Py.int_of_digits d = Raise e -> e = ValueError.
Proof.
  unfold Py.int_of_digits. destruct (parse_digits d 0 false); [| congruence].
  destruct (digit_count d <=? max_str_digits)%nat; congruence.
Qed.

(** [int] raises nothing but [ValueError]. *)
Lemma int_raises_ValueError (s : string) (e : exn) :
  Py.int s = Raise e -> e = ValueError.
Proof.
  unfold Py.int. destruct (strip s) as [|c d].
  - apply int_of_digits_raises.
  - destruct (Ascii.eqb_spec c "-"%char) as [-> | Hminus].
    + destruct (Py.int_of_digits d) as [n|e'] eqn:Hd; [discriminate |].
      intros [= <-]. by apply (int_of_digits_raises d).
    + destruct (Ascii.eqb_spec c "+"%char) as [-> | Hplus].
      * apply int_of_digits_raises.
      * intros Hint. apply (int_of_digits_raises (String c d)).
        rewrite <- Hint. clear Hint.
        destruct c as [[] [] [] [] [] [] [] []]; try reflexivity;
          congruence.
Qed.

(** A record that holds a PID other than the script's own: the PID is
    signalled and the file removed, whether or not the signal could be
    delivered. *)
Lemma terminate_and_clear_parsable (env : Env) (agent_id : string) (w : World)
    (text : string) (pid : Z) :
  files w !! heartbeat_pid_file agent_id = Some text ->
  Py.int (strip text) = Ok pid ->
  reaches_script env pid = false ->
  terminate_and_clear env agent_id w
  = (Ok tt,
     {| files := delete (heartbeat_pid_file agent_id) (files w);
        dirs := dirs w; stdin := stdin w;
        trace := (trace w ++ [EvKill pid;
                              EvRemove (heartbeat_pid_file agent_id)])%list |}).
Proof.
  intros Hsome Hint Hother. unfold terminate_and_clear. unfold_effects. cbn.
  rewrite Hsome. cbn. rewrite Hsome, Hint. cbn. rewrite Hother.
  destruct (signal_ok env _ pid); cbn; rewrite Hsome; cbn;
    rewrite <- app_assoc; reflexivity.
Qed.

(** A record that holds a PID through which the signal reaches the script:
    the script ends at the [os.kill], with the file still in place. *)
Lemma terminate_and_clear_self (env : Env) (agent_id : string) (w : World)
    (text : string) (pid : Z) :
  files w !! heartbeat_pid_file agent_id = Some text ->
  Py.int (strip text) = Ok pid ->
  reaches_script env pid = true ->
  terminate_and_clear env agent_id w
  = (Raise Terminated, add_events w [EvKill pid]).
Proof.
  intros Hsome Hint Hself. unfold terminate_and_clear. unfold_effects. cbn.
  rewrite Hsome. cbn. rewrite Hsome, Hint. cbn. rewrite Hself. reflexivity.
Qed.

(** A record whose content is no integer: the exception [int] raises is
    swallowed by the outer [except], and with it the [os.remove] that
    follows in the [try] block. *)
Lemma terminate_and_clear_unparsable (env : Env) (agent_id : string)
    (w : World) (text : string) (e : exn) :
  files w !! heartbeat_pid_file agent_id = Some text ->
  Py.int (strip text) = Raise e ->
  terminate_and_clear env agent_id w = (Ok tt, w).
Proof.
  intros Hsome Hint. pose proof (int_raises_ValueError _ _ Hint) as ->.
  unfold terminate_and_clear. unfold_effects. cbn.
  rewrite Hsome. cbn. rewrite Hsome, Hint. reflexivity.
Qed.

Lemma start_heartbeat_after_cleanup (env : Env) (agent_id : string)
    (w w' : World) :
  terminate_and_clear env agent_id w = (Ok tt, w') ->
  start_heartbeat env agent_id w
  = (Ok true, add_events w' (heartbeat_start_events agent_id)).
Proof.
  intros Hclear. unfold start_heartbeat. unfold bind at 1. rewrite Hclear.
  unfold_effects. flatten_trace. reflexivity.
Qed.

Lemma start_heartbeat_ended (env : Env) (agent_id : string) (w w' : World)
    (e : exn) :
  terminate_and_clear env agent_id w = (Raise e, w') ->
  start_heartbeat env agent_id w = (Raise e, w').
Proof.
  intros Hclear. unfold start_heartbeat. unfold bind at 1. by rewrite Hclear.
Qed.

(** A recorded PID whose process is gone: the failed signal is swallowed and
    the file is removed all the same. *)
Example stale_pid_is_signalled_and_removed :
  signal_ok (linux_host [] []) 0 4242 = false
  /\ terminate_and_clear (linux_host [] []) "agent7"
       (world_with (Some ("4242" ++ newline)) [])
     = (Ok tt,
        add_events (world_with None [])
          [EvKill 4242; EvRemove ".heartbeat_agent7.pid"]).
Proof. split; vm_compute; reflexivity. Qed.

(** The clean-up raises no exception, so neither does [start_heartbeat]:
    they return, unless the signal they send ends the script. *)
Lemma terminate_and_clear_total (env : Env) (agent_id : string) (w : World) :
  fst (terminate_and_clear env agent_id w) = Ok tt
  \/ fst (terminate_and_clear env agent_id w) = Raise Terminated.
Proof.
  destruct (files w !! heartbeat_pid_file agent_id) as [text|] eqn:Hfile.
  - destruct (Py.int (strip text)) as [pid|e] eqn:Hint.
    + destruct (reaches_script env pid) eqn:Hself.
      * right. by rewrite (terminate_and_clear_self env agent_id w text pid).
      * left. by rewrite (terminate_and_clear_parsable env agent_id w text pid).
    + left. by rewrite (terminate_and_clear_unparsable env agent_id w text e).
  - left. by rewrite terminate_and_clear_absent.
Qed.

Lemma start_heartbeat_total (env : Env) (agent_id : string) (w : World) :
  fst (start_heartbeat env agent_id w) = Ok true
  \/ fst (start_heartbeat env agent_id w) = Raise Terminated.
Proof.
  destruct (terminate_and_clear_total env agent_id w) as [Hok | Hend];
    destruct (terminate_and_clear env agent_id w) as [r w'] eqn:Hclear;
    cbn in *; subst r.
  - left. by rewrite (start_heartbeat_after_cleanup env agent_id w w').
  - right. by rewrite (start_heartbeat_ended env agent_id w w' Terminated).
Qed.

Lemma has_record_false (w : World) (agent_id : string) :
  has_record w agent_id = false <->
  files w !! heartbeat_pid_file agent_id = None.
Proof.
  unfold has_record. rewrite bool_decide_eq_false, <- eq_None_not_Some.
  reflexivity.
Qed.

(** C1, as the script has it.  With no PID file for the agent, heartbeat
    start writes none: the files of the working directory stay as they
    were, no process is signalled, and the only effects are the
    announcement, the start of the daemon thread and the exit hook.  A
    second start for the same agent does the same again.  So no record
    exists for the agent after either call, and no effect of either call
    creates one. *)
Theorem start_heartbeat_keeps_no_record (env : Env) (agent_id : string)
    (w : World) :
  has_record w agent_id = false ->
  let w1 := snd (start_heartbeat env agent_id w) in
  let w2 := snd (start_heartbeat env agent_id w1) in
  fst (start_heartbeat env agent_id w) = Ok true
  /\ fst (start_heartbeat env agent_id w1) = Ok true
  /\ effects (start_heartbeat env agent_id) w = heartbeat_start_events agent_id
  /\ effects (start_heartbeat env agent_id) w1 = heartbeat_start_events agent_id
  /\ files w1 = files w /\ files w2 = files w
  /\ has_record w1 agent_id = false /\ has_record w2 agent_id = false.
Proof.
  intros Hnone w1 w2.
  assert (Hrun1 : start_heartbeat env agent_id w
                  = (Ok true, add_events w (heartbeat_start_events agent_id))).
  { apply start_heartbeat_after_cleanup, terminate_and_clear_absent.
    by apply has_record_false. }
  assert (Hw1 : w1 = add_events w (heartbeat_start_events agent_id)).
  { unfold w1. by rewrite Hrun1. }
  assert (Hrun2 : start_heartbeat env agent_id w1
                  = (Ok true, add_events w1 (heartbeat_start_events agent_id))).
  { apply start_heartbeat_after_cleanup, terminate_and_clear_absent.
    rewrite Hw1. by apply has_record_false. }
  assert (Hw2 : w2 = add_events w1 (heartbeat_start_events agent_id)).
  { unfold w2. by rewrite Hrun2. }
  rewrite (effects_add_events _ _ _ _ Hrun1), (effects_add_events _ _ _ _ Hrun2).
  rewrite Hrun1, Hrun2. cbn [fst].
  repeat split; rewrite ?Hw2, ?Hw1; try done.
Qed.

Lemma start_heartbeat_keeps_no_record_witness :
  has_record (world_with None []) "agent7" = false
  /\ files (snd (start_heartbeat (linux_host [] []) "agent7"
                   (snd (start_heartbeat (linux_host [] []) "agent7"
                           (world_with None [])))))
     = files (world_with None []).
Proof.
  split; [reflexivity |].
  exact (proj1 (proj2 (proj2 (proj2 (proj2 (proj2
           (start_heartbeat_keeps_no_record (linux_host [] []) "agent7"
              (world_with None []) eq_refl))))))).
Defined.

(** C1 as stated fails: in a working directory without a PID file for
    [agent7], heartbeat start leaves no record for it, and the second start
    finds nothing to signal. *)
Lemma start_heartbeat_creates_no_record :
  has_record (world_with None []) "agent7" = false
  /\ has_record
       (snd (start_heartbeat (linux_host [] []) "agent7" (world_with None [])))
       "agent7" = false
  /\ effects (start_heartbeat (linux_host [] []) "agent7")
       (snd (start_heartbeat (linux_host [] []) "agent7" (world_with None [])))
     = [EvPrint "Starting automatic heartbeat...";
        EvThread true "heartbeat_thread" "agent7";
        EvAtexit "Heartbeat stopped."].
Proof. repeat split; vm_compute; reflexivity. Qed.

(** C2 at a failing input.  The PID file of [agent7] holds text that is no
    integer.  The clean-up returns normally and changes nothing: the stale
    file is still there after it, and after [start_heartbeat]. *)
Theorem stale_record_survives_cleanup :
  has_record (world_with (Some "not-a-pid") []) "agent7" = true
  /\ terminate_and_clear (linux_host [] []) "agent7"
       (world_with (Some "not-a-pid") [])
     = (Ok tt, world_with (Some "not-a-pid") [])
  /\ has_record
       (snd (start_heartbeat (linux_host [] []) "agent7"
               (world_with (Some "not-a-pid") [])))
       "agent7" = true.
Proof. repeat split; vm_compute; reflexivity. Qed.

(** C3 on the code.  When the PID file holds unparsable text, the failure
    to read a PID does not reach the caller ([start_heartbeat] returns
    [True]), but the clean-up does not proceed: the file is not removed, no
    removal is even attempted, and the record is still there afterwards. *)
Theorem unparsable_record_is_not_removed (env : Env) (agent_id : string)
    (w : World) (text : string) :
  files w !! heartbeat_pid_file agent_id = Some text ->
  Py.int (strip text) = Raise ValueError ->
  fst (start_heartbeat env agent_id w) = Ok true
  /\ effects (start_heartbeat env agent_id) w = heartbeat_start_events agent_id
  /\ files (snd (start_heartbeat env agent_id w)) = files w
  /\ has_record (snd (start_heartbeat env agent_id w)) agent_id = true.
Proof.
  intros Hsome Hint.
  assert (Hrun : start_heartbeat env agent_id w
                 = (Ok true, add_events w (heartbeat_start_events agent_id))).
  { apply start_heartbeat_after_cleanup.
    by apply (terminate_and_clear_unparsable env agent_id w text ValueError). }
  rewrite (effects_add_events _ _ _ _ Hrun), Hrun. cbn [fst snd].
  repeat split. unfold has_record. cbn. rewrite Hsome.
  apply bool_decide_eq_true. by eexists.
Qed.

Lemma unparsable_record_is_not_removed_witness :
  files (world_with (Some "12x") []) !! heartbeat_pid_file "agent7" = Some "12x"
  /\ Py.int (strip "12x") = Raise ValueError
  /\ has_record
       (snd (start_heartbeat (linux_host [] []) "agent7"
               (world_with (Some "12x") [])))
       "agent7" = true.
Proof.
  split; [reflexivity |]. split; [reflexivity |].
  exact (proj2 (proj2 (proj2
           (unparsable_record_is_not_removed (linux_host [] []) "agent7"
              (world_with (Some "12x") []) "12x" eq_refl eq_refl)))).
Defined.

(** *** The monitors *)

(** Case analysis on the outcome of every command a run spawns. *)
Ltac each_outcome env :=
  repeat match goal with
         | |- context [spawn env ?t ?argv] =>
             let E := fresh "Hspawn" in destruct (spawn env t argv) eqn:E; cbn
         end.

(** Close a case in which a startable program is said not to start. *)
Ltac not_started :=
  match goal with
  | Hs : startable ?env ?prog, E : spawn ?env _ (?prog :: _) = NotStarted |- _ =>
      exfalso; exact (Hs _ _ E)
  end.

Ltac show_effects :=
  unfold effects; cbn; rewrite <- ?app_assoc; cbn;
  try (rewrite drop_app_length); try reflexivity.

(** C4.  On Linux and macOS the launch strategy is a function of which
    tools [shutil.which] finds: [screen] when it is there, else [tmux] when
    that is there, else a detached background process.  Nothing else the
    host answers changes the choice. *)
Theorem strategy_selection_is_deterministic (env : Env) (w : World) :
  is_unix (get_os_info env) = true ->
  launch_strategy (effects (start_monitoring env) w)
  = Some (if truthy (which env "screen") then multiplexer_screen
          else if truthy (which env "tmux") then multiplexer_tmux
          else detached_background).
Proof.
  intros Hunix. unfold effects, start_monitoring. unfold_effects.
  destruct (get_os_info env); [| | discriminate Hunix];
    destruct (truthy (which env "screen"));
    destruct (truthy (which env "tmux")); cbn;
    each_outcome env; show_effects.
Qed.

Lemma strategy_selection_is_deterministic_witness :
  is_unix (get_os_info (linux_host ["tmux"] [])) = true
  /\ launch_strategy
       (effects (start_monitoring (linux_host ["screen"; "tmux"] [])) empty_world)
     = Some multiplexer_screen
  /\ launch_strategy
       (effects (start_monitoring (linux_host ["tmux"] [])) empty_world)
     = Some multiplexer_tmux
  /\ launch_strategy
       (effects (start_monitoring (linux_host [] [])) empty_world)
     = Some detached_background.
Proof.
  split; [reflexivity |]. split; [| split].
  - exact (strategy_selection_is_deterministic
             (linux_host ["screen"; "tmux"] []) empty_world eq_refl).
  - exact (strategy_selection_is_deterministic
             (linux_host ["tmux"] []) empty_world eq_refl).
  - exact (strategy_selection_is_deterministic
             (linux_host [] []) empty_world eq_refl).
Defined.

(** C6.  On Linux and macOS with neither [screen] nor [tmux] the supervisor
    always attempts the background launch of the watcher, with its output
    discarded, but whether the advisory follows depends on that launch.
    When the watcher cannot be started, the [OSError] of
    [subprocess.Popen] ends [start_monitoring] right after the attempt and
    no advisory is printed.  Only when the watcher starts is the advisory
    that recommends a multiplexer printed and [True] returned. *)
Theorem unstarted_watcher_gets_no_advisory (env : Env) (w : World) :
  is_unix (get_os_info env) = true ->
  truthy (which env "screen") = false ->
  truthy (which env "tmux") = false ->
  match spawn env (3 + List.length (trace w)) ["./scripts/watch_events.sh"] with
  | NotStarted =>
      fst (start_monitoring env w) = Raise OSError
      /\ effects (start_monitoring env) w
         = [services_banner env; kill_stale;
            EvPrint "Starting event monitor in background...";
            EvPopen ["./scripts/watch_events.sh"] false true]
  | Exited _ =>
      fst (start_monitoring env w) = Ok true
      /\ effects (start_monitoring env) w
         = [services_banner env; kill_stale;
            EvPrint "Starting event monitor in background...";
            EvPopen ["./scripts/watch_events.sh"] false true;
            EvPrint (colorize env advisory Colors.YELLOW)]
  end.
Proof.
  intros Hunix Hscreen Htmux.
  destruct (spawn env (3 + List.length (trace w)) ["./scripts/watch_events.sh"])
    eqn:Hlaunch; cbn in Hlaunch;
    unfold effects, start_monitoring, services_banner, kill_stale;
    unfold_effects; rewrite Hscreen, Htmux;
    (destruct (get_os_info env); [| | discriminate Hunix]); cbn;
    match goal with
    | |- context [spawn env ?t ("pkill" :: ?args)] =>
        destruct (spawn env t ("pkill" :: args))
    end; cbn; rewrite !last_length, Hlaunch; cbn; split; show_effects.
Qed.

Lemma unstarted_watcher_gets_no_advisory_witness :
  is_unix (get_os_info
             (linux_host ["jq"; "inotifywait"] [["./scripts/watch_events.sh"]]))
  = true
  /\ truthy (which (linux_host ["jq"; "inotifywait"]
                      [["./scripts/watch_events.sh"]]) "screen") = false
  /\ truthy (which (linux_host ["jq"; "inotifywait"]
                      [["./scripts/watch_events.sh"]]) "tmux") = false
  /\ fst (start_monitoring
            (linux_host ["jq"; "inotifywait"] [["./scripts/watch_events.sh"]])
            empty_world)
     = Raise OSError
  /\ existsb
       (is_print_of
          (colorize (linux_host ["jq"; "inotifywait"]
                       [["./scripts/watch_events.sh"]])
             advisory Colors.YELLOW))
       (effects
          (start_monitoring
             (linux_host ["jq"; "inotifywait"] [["./scripts/watch_events.sh"]]))
          empty_world)
     = false.
Proof.
  assert (H : fst (start_monitoring
                     (linux_host ["jq"; "inotifywait"]
                        [["./scripts/watch_events.sh"]]) empty_world)
              = Raise OSError
              /\ effects
                   (start_monitoring
                      (linux_host ["jq"; "inotifywait"]
                         [["./scripts/watch_events.sh"]])) empty_world
                 = [services_banner
                      (linux_host ["jq"; "inotifywait"]
                         [["./scripts/watch_events.sh"]]);
                    kill_stale;
                    EvPrint "Starting event monitor in background...";
                    EvPopen ["./scripts/watch_events.sh"] false true]).
  { exact (unstarted_watcher_gets_no_advisory
             (linux_host ["jq"; "inotifywait"] [["./scripts/watch_events.sh"]])
             empty_world eq_refl eq_refl eq_refl). }
  destruct H as [Hraise Heffects].
  do 3 (split; [reflexivity |]). split; [exact Hraise |].
  rewrite Heffects. reflexivity.
Defined.

(** The same host runs the watcher in the background and prints the
    advisory once the watcher script is in place. *)
Example fallback_with_watcher_in_place :
  fst (start_monitoring (linux_host ["jq"; "inotifywait"] []) empty_world)
  = Ok true
  /\ last (effects (start_monitoring (linux_host ["jq"; "inotifywait"] []))
             empty_world)
     = Some (EvPrint (colorize (linux_host ["jq"; "inotifywait"] [])
                        advisory Colors.YELLOW)).
Proof. split; vm_compute; reflexivity. Qed.

(** Case analysis on the exit statuses met by [each_outcome]. *)
Ltac exit_codes :=
  repeat match goal with
         | E : spawn _ _ _ = Exited ?code |- _ => is_var code; destruct code
         end.

(** Close a case in which a command exits with 0 against [Hexit]. *)
Ltac exited_0 Hexit :=
  match goal with
  | E : spawn _ _ _ = Exited 0 |- _ => by destruct (Hexit _ _ E)
  end.

(** C7 as stated fails.  [tmux] is installed and every command
    starts but exits with status 1 (as [tmux new-session] does when the
    session name is taken).  The [tmux] strategy is selected and
    [start_monitoring] returns [True], yet no session was created. *)
Lemma failed_multiplexer_creates_no_session :
  truthy (which (host_exiting ["tmux"] 1) "tmux") = true
  /\ fst (start_monitoring (host_exiting ["tmux"] 1) empty_world) = Ok true
  /\ launch_strategy
       (effects (start_monitoring (host_exiting ["tmux"] 1)) empty_world)
     = Some multiplexer_tmux
  /\ sessions_created (host_exiting ["tmux"] 1) 0
       (effects (start_monitoring (host_exiting ["tmux"] 1)) empty_world)
     = [].
Proof. repeat split; vm_compute; reflexivity. Qed.

(** C7, as the script has it.  When a multiplexer is chosen and can be
    started, the supervisor issues exactly two session-creating commands,
    in this order: one for [event_monitor] running the event watcher and
    one for [agent_monitor] running the fixed command that lists the
    agents' status every 10 seconds.  It returns [True] whatever their
    exit statuses, which it does not check: both sessions are created when
    the multiplexer's commands exit with status 0, and none is when they
    all exit with another status. *)
Theorem multiplexer_creates_two_named_sessions (env : Env) (w : World)
    (mux : string) :
  is_unix (get_os_info env) = true ->
  (mux = "screen" /\ truthy (which env "screen") = true)
  \/ (mux = "tmux" /\ truthy (which env "screen") = false
      /\ truthy (which env "tmux") = true) ->
  startable env mux ->
  fst (start_monitoring env w) = Ok true
  /\ sessions (effects (start_monitoring env) w)
     = [("event_monitor", "./scripts/watch_events.sh");
        ("agent_monitor", "watch -n 10 ./scripts/agent_status.sh list")]
  /\ launch_strategy (effects (start_monitoring env) w)
     = Some (if String.eqb mux "screen" then multiplexer_screen
             else multiplexer_tmux)
  /\ ((forall (t : nat) (args : list string),
         spawn env t (mux :: args) = Exited 0) ->
      sessions_created env (List.length (trace w))
        (effects (start_monitoring env) w)
      = [("event_monitor", "./scripts/watch_events.sh");
         ("agent_monitor", "watch -n 10 ./scripts/agent_status.sh list")])
  /\ ((forall (t : nat) (args : list string),
         spawn env t (mux :: args) <> Exited 0) ->
      sessions_created env (List.length (trace w))
        (effects (start_monitoring env) w)
      = []).
Proof.
  intros Hunix Hmux Hstart.
  assert (Heffects :
    fst (start_monitoring env w) = Ok true
    /\ effects (start_monitoring env) w
       = [services_banner env; kill_stale;
          EvPrint ("Starting event monitor in " ++ mux ++ " session...");
          EvRun (if String.eqb mux "screen"
                 then ["screen"; "-dmS"; "event_monitor";
                       "./scripts/watch_events.sh"]
                 else ["tmux"; "new-session"; "-d"; "-s"; "event_monitor";
                       "./scripts/watch_events.sh"]) false false false;
          EvRun (if String.eqb mux "screen"
                 then ["screen"; "-dmS"; "agent_monitor"; "watch"; "-n"; "10";
                       "./scripts/agent_status.sh"; "list"]
                 else ["tmux"; "new-session"; "-d"; "-s"; "agent_monitor";
                       "watch -n 10 ./scripts/agent_status.sh list"])
            false false false]).
  { unfold effects, start_monitoring, services_banner, kill_stale.
    unfold_effects.
    destruct Hmux as [[-> Hscreen] | (-> & Hscreen & Htmux)];
      rewrite Hscreen, ?Htmux;
      (destruct (get_os_info env); [| | discriminate Hunix]); cbn;
      each_outcome env; try not_started; split; show_effects. }
  destruct Heffects as [Hret Heffects]. rewrite Heffects.
  split; [exact Hret |].
  destruct Hmux as [[-> _] | (-> & _ & _)]; cbn;
    (split; [reflexivity |]); (split; [reflexivity |]);
    (split; intros Hexit).
  - by rewrite !Hexit.
  - each_outcome env; exit_codes; try reflexivity; exited_0 Hexit.
  - by rewrite !Hexit.
  - each_outcome env; exit_codes; try reflexivity; exited_0 Hexit.
Qed.

Lemma multiplexer_creates_two_named_sessions_witness :
  is_unix (get_os_info (linux_host ["tmux"] [])) = true
  /\ truthy (which (linux_host ["tmux"] []) "screen") = false
  /\ truthy (which (linux_host ["tmux"] []) "tmux") = true
  /\ startable (linux_host ["tmux"] []) "tmux"
  /\ sessions_created (linux_host ["tmux"] []) 0
       (effects (start_monitoring (linux_host ["tmux"] [])) empty_world)
     = [("event_monitor", "./scripts/watch_events.sh");
        ("agent_monitor", "watch -n 10 ./scripts/agent_status.sh list")].
Proof.
  assert (Hstart : startable (linux_host ["tmux"] []) "tmux").
  { intros t args. discriminate. }
  repeat (split; [reflexivity |]). split; [exact Hstart |].
  exact (proj1 (proj2 (proj2 (proj2
           (multiplexer_creates_two_named_sessions (linux_host ["tmux"] [])
              empty_world "tmux" eq_refl
              (or_intror (conj eq_refl (conj eq_refl eq_refl))) Hstart))))
           (fun _ _ => eq_refl)).
Defined.

(** C9.  [start_monitoring] has one return value, [True].  It never returns
    [False]: a run either returns [True] or is ended by the [OSError] of a
    launch command that could not be started.  When every command can be
    started it returns [True] in each branch, and on Windows without a
    [start] command it returns [True] after printing only the warning,
    with no monitor launched.  The value tells the caller nothing about
    whether monitoring is running. *)
Theorem start_monitoring_always_returns_True (env : Env) (w : World) :
  (fst (start_monitoring env w) = Ok true
   \/ (fst (start_monitoring env w) = Raise OSError
       /\ exists (t : nat) (argv : list string), spawn env t argv = NotStarted))
  /\ ((forall (t : nat) (argv : list string), spawn env t argv <> NotStarted) ->
      fst (start_monitoring env w) = Ok true)
  /\ (get_os_info env = Windows ->
      truthy (which env "start") = false ->
      fst (start_monitoring env w) = Ok true
      /\ effects (start_monitoring env) w
         = [services_banner env;
            EvPrint "Starting event monitoring in a new window...";
            EvPrint (colorize env
                       "Warning: Unable to start monitoring automatically."
                       Colors.YELLOW);
            EvPrint
              "Please open a new terminal and run: bash.exe scripts/watch_events.sh"]).
Proof.
  split; [| split].
  - unfold start_monitoring. unfold_effects.
    destruct (get_os_info env);
      destruct (truthy (which env "screen"));
      destruct (truthy (which env "tmux"));
      destruct (truthy (which env "start")); cbn;
      each_outcome env; eauto.
  - intros Hall. unfold start_monitoring. unfold_effects.
    destruct (get_os_info env);
      destruct (truthy (which env "screen"));
      destruct (truthy (which env "tmux"));
      destruct (truthy (which env "start")); cbn;
      each_outcome env; try reflexivity;
      match goal with
      | E : spawn env _ _ = NotStarted |- _ => exfalso; exact (Hall _ _ E)
      end.
  - intros Hwin Hstart.
    unfold effects, start_monitoring, services_banner. unfold_effects.
    rewrite Hwin, Hstart. cbn. split; show_effects.
Qed.

(** On a Windows host without [start]: [True], and nothing launched. *)
Example start_monitoring_windows_unstarted :
  fst (start_monitoring windows_host empty_world) = Ok true
  /\ launch_strategy (effects (start_monitoring windows_host) empty_world)
     = None.
Proof. split; reflexivity. Qed.

(** *** The main sequence *)

(** Missing dependencies that cannot be installed end the setup with
    status 1, before anything is set up. *)
Example main_aborts_on_missing_dependency :
  fst (check_dependencies (linux_host [] []) empty_world)
    = Ok ["jq"; "inotify-tools"]
  /\ fst (main (linux_host [] []) (world_with None ["agent7"; "llm"; "helper"]))
     = Ok 1
  /\ dirs (snd (main (linux_host [] [])
                  (world_with None ["agent7"; "llm"; "helper"]))) = ∅.
Proof. repeat split; vm_compute; reflexivity. Qed.

(** With the dependencies and a multiplexer in place the setup runs to its
    end, and so it does on Windows without [start], where monitoring is
    left unstarted, and with a stale PID file that cannot be read. *)
Example main_completes :
  fst (main (linux_host ["jq"; "inotifywait"; "screen"] [])
         (world_with None ["agent7"; "llm"; "helper"])) = Ok 0
  /\ fst (main windows_host (world_with None ["agent7"; "llm"; "helper"]))
     = Ok 0
  /\ fst (main (linux_host ["jq"; "inotifywait"] [])
            (world_with (Some "not-a-pid") ["agent7"; "llm"; "helper"]))
     = Ok 0.
Proof. repeat split; vm_compute; reflexivity. Qed.

(** C8 at a failing input.  A Linux host has [jq] and [inotifywait] but no
    multiplexer, and [./scripts/watch_events.sh] cannot be executed.  No
    dependency is missing, yet the setup does not reach its end: the
    [OSError] of the background launch leaves [start_monitoring] and
    [main], and the last thing the script did was to attempt that launch;
    the agent is neither registered nor given a heartbeat. *)
Theorem launch_failure_aborts_setup :
  fst (check_dependencies
         (linux_host ["jq"; "inotifywait"] [["./scripts/watch_events.sh"]])
         empty_world) = Ok []
  /\ fst (main (linux_host ["jq"; "inotifywait"] [["./scripts/watch_events.sh"]])
            (world_with None ["agent7"; "llm"; "helper"]))
     = Raise OSError
  /\ last (trace (snd (main (linux_host ["jq"; "inotifywait"]
                               [["./scripts/watch_events.sh"]])
                         (world_with None ["agent7"; "llm"; "helper"]))))
     = Some (EvPopen ["./scripts/watch_events.sh"] false true)
  /\ existsb starts_thread
       (trace (snd (main (linux_host ["jq"; "inotifywait"]
                            [["./scripts/watch_events.sh"]])
                      (world_with None ["agent7"; "llm"; "helper"]))))
     = false.
Proof. repeat split; vm_compute; reflexivity. Qed.

Lemma returns_only_ret {A : Type} (a : A) (P : A -> Prop) :
  P a -> returns_only (ret a) P.
Proof. intros HP w b Hb. cbn in Hb. by inversion Hb; subst. Qed.

Lemma returns_only_bind {A B : Type} (m : M A) (k : A -> M B) (P : B -> Prop) :
  (forall a : A, returns_only (k a) P) -> returns_only (bind m k) P.
Proof.
  intros Hk w b. unfold bind. destruct (m w) as [[a|e] w'].
  - apply Hk.
  - discriminate.
Qed.

(** Once the dependencies are there, the only status the rest of [main]
    returns is 0. *)
Lemma bring_up_status (env : Env) : returns_only (bring_up env) (fun z => z = 0).
Proof.
  unfold bring_up.
  do 3 (apply returns_only_bind; intros _).
  apply returns_only_bind. intros [[agent_id agent_type] description].
  repeat (apply returns_only_bind; intros _).
  by apply returns_only_ret.
Qed.

Lemma bind_ok {A B : Type} (m : M A) (k : A -> M B) (w : World) (b : B) :
  fst (bind m k w) = Ok b ->
  exists (a : A) (w' : World), m w = (Ok a, w') /\ fst (k a w') = Ok b.
Proof.
  unfold bind. destruct (m w) as [[a|e] w']; [eauto | discriminate].
Qed.

(** [main] returns 0 or 1, and 1 only when [check_dependencies] reported a
    missing dependency. *)
Lemma main_status (env : Env) (w : World) (z : Z) :
  fst (main env w) = Ok z ->
  z = 0 \/ (z = 1 /\ exists w0 : World, fst (check_dependencies env w0) <> Ok []).
Proof.
  unfold main. intros Hz.
  apply bind_ok in Hz as (_ & w1 & _ & Hz).
  apply bind_ok in Hz as (_ & w2 & _ & Hz).
  apply bind_ok in Hz as (missing & w3 & Hcheck & Hz).
  apply bind_ok in Hz as ([|] & w4 & Habort & Hz).
  - right. split.
    + revert Hz. generalize w4 z. fold (returns_only
        (print (colorize env
                  (newline ++ "Setup cannot continue without required dependencies.")
                  Colors.RED) ;;;
         print "Please install them manually and run this script again." ;;;
         ret 1) (fun z => z = 1)).
      repeat (apply returns_only_bind; intros _). by apply returns_only_ret.
    + exists w2. rewrite Hcheck. cbn. destruct missing; [discriminate | congruence].
  - left. by eapply bring_up_status.
Qed.

(** * Further properties of the script *)

(** ** Effects that only append to the trace *)

Lemma appends_weaken {A : Type} (E E' : exn -> Prop) (m : M A) :
  (forall e : exn, E e -> E' e) -> appends E m -> appends E' m.
Proof.
  intros Hsub Hm w. destruct (Hm w) as (r & l & Hrun & Hr).
  exists r, l. split; [exact Hrun |]. destruct r; [exact I | by apply Hsub].
Qed.

Lemma appends_ret {A : Type} (E : exn -> Prop) (a : A) : appends E (ret a).
Proof. intros w. exists (Ok a), []. by rewrite add_events_nil. Qed.

Lemma appends_emit (E : exn -> Prop) (e : event) : appends E (emit e).
Proof. intros w. by exists (Ok tt), [e]. Qed.

Lemma appends_print (E : exn -> Prop) (line : string) : appends E (print line).
Proof. apply appends_emit. Qed.

Lemma appends_bind {A B : Type} (E : exn -> Prop) (m : M A) (k : A -> M B) :
  appends E m -> (forall a : A, appends E (k a)) -> appends E (bind m k).
Proof.
  intros Hm Hk w. unfold bind.
  destruct (Hm w) as ([a|e] & l & -> & Hr).
  - destruct (Hk a (add_events w l)) as (r & l' & -> & Hr').
    exists r, (l ++ l')%list. by rewrite add_events_app.
  - by exists (Raise e), l.
Qed.

Lemma appends_for_each {A : Type} (E : exn -> Prop) (l : list A)
    (body : A -> M unit) :
  (forall x : A, appends E (body x)) -> appends E (for_each l body).
Proof.
  intros Hbody. induction l as [|x rest IH]; cbn.
  - apply appends_ret.
  - apply appends_bind; [apply Hbody | intros _; exact IH].
Qed.

(** A bare [except] lets nothing of the body's exceptions through. *)
Lemma appends_try_except {A : Type} (E E' : exn -> Prop) (body handler : M A) :
  appends E body ->
  (forall e : exn, E e -> is_terminated e = false) ->
  appends E' handler -> appends E' (try_except body handler).
Proof.
  intros Hb Hexn Hh w. unfold try_except.
  destruct (Hb w) as ([a|e] & l & -> & Hr).
  - by exists (Ok a), l.
  - rewrite (Hexn e Hr).
    destruct (Hh (add_events w l)) as (r & l' & -> & Hr').
    exists r, (l ++ l')%list. by rewrite add_events_app.
Qed.

Lemma spawn_failure_is_exception (env : Env) (e : exn) :
  spawn_failure env e -> is_terminated e = false.
Proof. by intros [-> _]. Qed.

(** A typed [except] lets through what it does not name. *)
Lemma appends_try_except_only {A : Type} (E E' : exn -> Prop)
    (cls : exn -> bool) (body handler : M A) :
  appends E body -> appends E' handler ->
  (forall e : exn, E e -> cls e = false -> E' e) ->
  appends E' (try_except_only cls body handler).
Proof.
  intros Hb Hh Hpass w. unfold try_except_only.
  destruct (Hb w) as ([a|e] & l & -> & Hr).
  - by exists (Ok a), l.
  - destruct (cls e) eqn:Hcls.
    + destruct (Hh (add_events w l)) as (r & l' & -> & Hr').
      exists r, (l ++ l')%list. by rewrite add_events_app.
    + exists (Raise e), l. split; [reflexivity | by apply Hpass].
Qed.

Lemma appends_subprocess_run (env : Env) (argv : list string)
    (quiet_out quiet_err : bool) :
  appends (spawn_failure env) (subprocess_run env argv quiet_out quiet_err false).
Proof.
  intros w. unfold subprocess_run. unfold_effects. cbn.
  destruct (spawn env _ argv) as [code|] eqn:Hspawn.
  - by exists (Ok code), [EvRun argv quiet_out quiet_err false].
  - exists (Raise OSError), [EvRun argv quiet_out quiet_err false].
    split; [reflexivity |]. split; eauto.
Qed.

Lemma appends_subprocess_run_check (env : Env) (argv : list string)
    (quiet_out quiet_err : bool) :
  appends (fun e => spawn_failure env e \/ e = CalledProcessError)
    (subprocess_run env argv quiet_out quiet_err true).
Proof.
  intros w. unfold subprocess_run. unfold_effects. cbn.
  destruct (spawn env _ argv) as [code|] eqn:Hspawn.
  - destruct (negb (code =? 0)).
    + exists (Raise CalledProcessError), [EvRun argv quiet_out quiet_err true].
      split; [reflexivity | by right].
    + by exists (Ok code), [EvRun argv quiet_out quiet_err true].
  - exists (Raise OSError), [EvRun argv quiet_out quiet_err true].
    split; [reflexivity |]. left. split; eauto.
Qed.

Lemma appends_subprocess_Popen (env : Env) (argv : list string)
    (shell quiet : bool) :
  appends (spawn_failure env) (subprocess_Popen env argv shell quiet).
Proof.
  intros w. unfold subprocess_Popen. unfold_effects. cbn.
  destruct (spawn env _ argv) as [code|] eqn:Hspawn.
  - by exists (Ok tt), [EvPopen argv shell quiet].
  - exists (Raise OSError), [EvPopen argv shell quiet].
    split; [reflexivity |]. split; eauto.
Qed.

(** Apply the rules above along the structure of a function. *)
Ltac appends_step :=
  first
    [ apply appends_ret
    | apply appends_print
    | apply appends_emit
    | apply appends_subprocess_run
    | apply appends_subprocess_Popen
    | apply appends_subprocess_run_check
    | apply appends_for_each; intros ?
    | apply appends_bind; [| intros ?] ].

Ltac appends_auto := repeat appends_step.

Lemma appends_print_banner (E : exn -> Prop) (env : Env) :
  appends E (print_banner env).
Proof. unfold print_banner. appends_auto. Qed.

Lemma appends_check_dependencies (E : exn -> Prop) (env : Env) :
  appends E (check_dependencies env).
Proof. unfold check_dependencies. appends_auto. Qed.

Lemma appends_print_deps (E : exn -> Prop) (deps : list string) :
  appends E (print_deps deps).
Proof. unfold print_deps. appends_auto. Qed.

Lemma appends_install_dependencies (env : Env) (missing_deps : list string) :
  appends (spawn_failure env) (install_dependencies env missing_deps).
Proof.
  unfold install_dependencies. destruct missing_deps as [|dep rest].
  { appends_auto. }
  apply appends_bind; [appends_auto |]. intros _.
  apply appends_bind.
  - apply appends_try_except_only
      with (E := fun e => spawn_failure env e \/ e = CalledProcessError).
    + destruct (get_os_info env);
        repeat match goal with
               | |- context [if ?b then _ else _] => destruct b
               end;
        repeat first [ apply appends_print_deps | appends_step ].
    + repeat first [ apply appends_print_deps | appends_step ].
    + intros e [He | ->] Hcls; [exact He | discriminate Hcls].
  - intros [b|]; appends_auto.
Qed.

Lemma appends_start_monitoring (env : Env) :
  appends (spawn_failure env) (start_monitoring env).
Proof.
  unfold start_monitoring.
  apply appends_bind; [appends_auto |]. intros _.
  apply appends_bind.
  { destruct (is_unix (get_os_info env)); [| appends_auto].
    apply appends_try_except with (E := spawn_failure env);
      [| apply spawn_failure_is_exception |]; appends_auto. }
  intros _. apply appends_bind; [| intros _; appends_auto].
  destruct (get_os_info env);
    repeat match goal with
           | |- context [if ?b then _ else _] => destruct b
           end;
    appends_auto;
    match goal with
    | |- appends _ (match ?l with [] => _ | _ => _ end) => destruct l
    end; appends_auto.
Qed.

Lemma appends_register_agent (env : Env) (agent_id agent_type description : string) :
  appends (spawn_failure env)
    (register_agent env agent_id agent_type description).
Proof. unfold register_agent. destruct (get_os_info env); appends_auto. Qed.

Lemma appends_send_message (env : Env) (agent_id agent_type message : string) :
  appends (spawn_failure env) (send_message env agent_id agent_type message).
Proof. unfold send_message. destruct (get_os_info env); appends_auto. Qed.

Lemma appends_generate_snapshot (env : Env) :
  appends (spawn_failure env) (generate_snapshot env).
Proof. unfold generate_snapshot. destruct (get_os_info env); appends_auto. Qed.

Lemma appends_show_quick_reference (E : exn -> Prop) (env : Env)
    (agent_id : string) :
  appends E (show_quick_reference env agent_id).
Proof. unfold show_quick_reference. appends_auto. Qed.

(** ** Dependencies *)

(** X1.  [check_dependencies] never fails and reports exactly what is
    missing for the platform: [jq] when it is not found, [inotify-tools]
    on Linux when [inotifywait] is not found, [fswatch] on macOS when it is
    not found, and nothing else. *)
Theorem check_dependencies_reports_what_is_missing (env : Env) (w : World) :
  exists deps : list string,
    check_dependencies env w
    = (Ok deps,
       add_events w
         [EvPrint (colorize env "[1/5]" Colors.BLUE ++ " "
                     ++ "Checking dependencies...")])
    /\ ("jq" ∈ deps <-> truthy (which env "jq") = false)
    /\ ("inotify-tools" ∈ deps
        <-> get_os_info env = Linux /\ truthy (which env "inotifywait") = false)
    /\ ("fswatch" ∈ deps
        <-> get_os_info env = macOS /\ truthy (which env "fswatch") = false)
    /\ (forall dep : string,
          dep ∈ deps -> dep ∈ ["jq"; "inotify-tools"; "fswatch"]).
Proof.
  unfold check_dependencies. unfold_effects.
  destruct (get_os_info env);
    destruct (truthy (which env "jq"));
    destruct (truthy (which env "inotifywait"));
    destruct (truthy (which env "fswatch")); cbn;
    eexists; (split; [reflexivity |]);
    repeat split; intros;
    repeat match goal with
           | H : _ ∈ _ |- _ => rewrite ?elem_of_cons, ?elem_of_nil in H
           end;
    rewrite ?elem_of_cons, ?elem_of_nil;
    intuition (discriminate || congruence).
Qed.

Lemma for_each_emit_run {A : Type} (f : A -> event) (l : list A) (w : World) :
  for_each l (fun x => emit (f x)) w = (Ok tt, add_events w (map f l)).
Proof.
  revert w. induction l as [|x rest IH]; intros w; cbn.
  - by rewrite add_events_nil.
  - unfold bind.
    change (emit (f x) w) with (Ok tt, add_events w [f x]). cbn iota.
    rewrite IH. unfold add_events. cbn. by rewrite <- app_assoc.
Qed.

Lemma print_deps_run (deps : list string) (w : World) :
  print_deps deps w
  = (Ok tt, add_events w (map (fun dep => EvPrint ("  - " ++ dep)) deps)).
Proof. exact (for_each_emit_run (fun dep => EvPrint ("  - " ++ dep)) deps w). Qed.

#[local] Arguments print_deps : simpl never.

Lemma no_spawn_in_prints (f : string -> string) (l : list string) :
  existsb is_spawn (map (fun x => EvPrint (f x)) l) = false.
Proof. induction l as [|x rest IH]; [done | exact IH]. Qed.

(** X2.  Without the platform's package manager ([apt-get] or [yum],
    [brew], [choco]) nothing is installed: [install_dependencies] starts no
    command at all and returns [False]. *)
Theorem install_needs_a_package_manager (env : Env) (missing_deps : list string)
    (w : World) :
  missing_deps <> [] ->
  has_package_manager env = false ->
  fst (install_dependencies env missing_deps w) = Ok false
  /\ existsb is_spawn (effects (install_dependencies env missing_deps) w) = false.
Proof.
  intros Hne Hpm. destruct missing_deps as [|dep rest]; [done |].
  unfold has_package_manager in Hpm.
  unfold effects, install_dependencies.
  destruct (get_os_info env).
  - apply orb_false_elim in Hpm as [-> ->].
    unfold_effects. cbn. rewrite print_deps_run. cbn.
    rewrite <- !app_assoc, drop_app_length. cbn.
    split; [reflexivity |].
    apply (no_spawn_in_prints (fun dep => "  - " ++ dep) (dep :: rest)).
  - rewrite Hpm. unfold_effects. cbn.
    rewrite <- !app_assoc, drop_app_length. done.
  - rewrite Hpm. unfold_effects. cbn.
    destruct (bool_decide _); cbn;
      rewrite <- !app_assoc, drop_app_length; done.
Qed.

Lemma install_needs_a_package_manager_witness :
  ["jq"; "inotify-tools"] <> []
  /\ has_package_manager (linux_host [] []) = false
  /\ fst (install_dependencies (linux_host [] []) ["jq"; "inotify-tools"]
            empty_world) = Ok false.
Proof.
  assert (Hne : ["jq"; "inotify-tools"] <> []) by discriminate.
  split; [exact Hne |]. split; [reflexivity |].
  exact (proj1 (install_needs_a_package_manager (linux_host [] [])
                  ["jq"; "inotify-tools"] empty_world Hne eq_refl)).
Defined.

(** X3.  [install_dependencies] keeps its failures to itself.  It touches
    no file, no directory and no input; a command that exits with a
    non-zero status makes it return [False], never raise; and it raises
    only the [OSError] of a command that could not be started. *)
Theorem install_dependencies_contains_failures (env : Env)
    (missing_deps : list string) (w : World) :
  exists (r : result bool) (l : list event),
    install_dependencies env missing_deps w = (r, add_events w l)
    /\ (r = Ok true \/ r = Ok false
        \/ (r = Raise OSError
            /\ exists (t : nat) (argv : list string),
                 spawn env t argv = NotStarted)).
Proof.
  destruct (appends_install_dependencies env missing_deps w)
    as (r & l & Hrun & Hr).
  exists r, l. split; [exact Hrun |].
  destruct r as [[|]|e]; [by left | by right; left |].
  right; right. destruct Hr as [-> Hspawn]. by split.
Qed.

(** X4.  On Linux with [apt-get], when [apt-get update] exits with a
    non-zero status the installation is not attempted: the error and the
    list of dependencies are printed and the result is [False]. *)
Theorem failed_update_stops_installation (env : Env)
    (missing_deps : list string) (w : World) (code : Z) :
  missing_deps <> [] ->
  get_os_info env = Linux ->
  truthy (which env "apt-get") = true ->
  spawn env (List.length (trace w) + 1) ["sudo"; "apt-get"; "update"]
    = Exited code ->
  code <> 0 ->
  fst (install_dependencies env missing_deps w) = Ok false
  /\ effects (install_dependencies env missing_deps) w
     = ([EvPrint (colorize env
                    ("Installing missing dependencies: "
                       ++ Py.join ", " missing_deps) Colors.YELLOW);
         EvRun ["sudo"; "apt-get"; "update"] false false true;
         EvPrint (colorize env
                    "Error installing dependencies. Please install them manually:"
                    Colors.RED)]
        ++ map (fun dep => EvPrint ("  - " ++ dep)) missing_deps)%list.
Proof.
  intros Hne Hos Hapt Hspawn Hcode.
  destruct missing_deps as [|dep rest]; [done |].
  unfold effects, install_dependencies. rewrite Hos, Hapt.
  unfold_effects. cbn -[Py.join]. rewrite length_app. cbn -[Py.join].
  rewrite Hspawn. cbn -[Py.join].
  destruct (code =? 0) eqn:Hzero; [apply Z.eqb_eq in Hzero; done |].
  cbn -[Py.join]. rewrite print_deps_run. cbn -[Py.join].
  rewrite <- !app_assoc, drop_app_length. done.
Qed.

Lemma failed_update_stops_installation_witness :
  ["jq"] <> []
  /\ get_os_info (host_exiting ["apt-get"] 100) = Linux
  /\ truthy (which (host_exiting ["apt-get"] 100) "apt-get") = true
  /\ spawn (host_exiting ["apt-get"] 100)
       (List.length (trace empty_world) + 1) ["sudo"; "apt-get"; "update"]
     = Exited 100
  /\ 100 <> 0
  /\ fst (install_dependencies (host_exiting ["apt-get"] 100) ["jq"] empty_world)
     = Ok false.
Proof.
  assert (Hne : ["jq"] <> []) by discriminate.
  assert (Hcode : 100 <> 0) by discriminate.
  split; [exact Hne |]. do 3 (split; [reflexivity |]). split; [exact Hcode |].
  exact (proj1 (failed_update_stops_installation (host_exiting ["apt-get"] 100)
                  ["jq"] empty_world 100 Hne eq_refl eq_refl eq_refl Hcode)).
Defined.

Lemma bind_run {A B : Type} (m : M A) (k : A -> M B) (w w' : World) (a : A) :
  m w = (Ok a, w') -> bind m k w = k a w'.
Proof. intros Hm. unfold bind. by rewrite Hm. Qed.

Lemma bind_raise {A B : Type} (m : M A) (k : A -> M B) (w w' : World) (e : exn) :
  m w = (Raise e, w') -> bind m k w = (Raise e, w').
Proof. intros Hm. unfold bind. by rewrite Hm. Qed.

Lemma try_except_only_ok {A : Type} (cls : exn -> bool) (body handler : M A)
    (w w' : World) (a : A) :
  body w = (Ok a, w') -> try_except_only cls body handler w = (Ok a, w').
Proof. intros Hb. unfold try_except_only. by rewrite Hb. Qed.

(** Run the first computation of a bind whose run is known. *)
Ltac bind_step tac :=
  eapply eq_trans; [apply bind_run; tac | cbv beta].

Lemma choco_loop_run (env : Env) (deps : list string) (w : World) :
  (forall (t : nat) (pkg : string),
     spawn env t ["choco"; "install"; "-y"; pkg] = Exited 0) ->
  for_each deps (fun dep =>
      let win_pkg := dep in
      let win_pkg :=
        if String.eqb dep "jq" then "jq"
        else if String.eqb dep "inotify-tools" then "fswatch"
        else win_pkg in
      subprocess_run env ["choco"; "install"; "-y"; win_pkg] false false true ;;;
      ret tt) w
  = (Ok tt, add_events w (map choco_install deps)).
Proof.
  intros Hzero. revert w. induction deps as [|dep rest IH]; intros w.
  - cbn. by rewrite add_events_nil.
  - cbn [for_each map]. unfold bind at 1. unfold_effects. cbn.
    rewrite Hzero. cbn. rewrite IH. unfold add_events, choco_install. cbn.
    rewrite <- app_assoc. cbn. unfold windows_package.
    destruct (String.eqb_spec dep "jq") as [-> |]; reflexivity.
Qed.

Lemma filter_spawn_choco (deps : list string) :
  List.filter is_spawn (map choco_install deps) = map choco_install deps.
Proof. induction deps as [|dep rest IH]; [done | cbn; by rewrite IH]. Qed.

(** X5.  On Windows with [choco], when every [choco install] exits with 0,
    [install_dependencies] runs one [choco install -y] per missing
    dependency, in order, asking for [fswatch] in place of [inotify-tools]
    and for every other dependency under its own name, and returns
    [True]. *)
Theorem choco_installs_each_dependency (env : Env) (missing_deps : list string)
    (w : World) :
  missing_deps <> [] ->
  get_os_info env = Windows ->
  truthy (which env "choco") = true ->
  (forall (t : nat) (pkg : string),
     spawn env t ["choco"; "install"; "-y"; pkg] = Exited 0) ->
  fst (install_dependencies env missing_deps w) = Ok true
  /\ List.filter is_spawn (effects (install_dependencies env missing_deps) w)
     = map (fun dep =>
              EvRun ["choco"; "install"; "-y"; windows_package dep]
                false false true) missing_deps.
Proof.
  intros Hne Hos Hchoco Hzero.
  destruct missing_deps as [|dep rest]; [done |].
  assert (Hrun : install_dependencies env (dep :: rest) w
                 = (Ok true,
                    add_events w
                      ([EvPrint (colorize env
                                   ("Installing missing dependencies: "
                                      ++ Py.join ", " (dep :: rest))
                                   Colors.YELLOW)]
                       ++ map choco_install (dep :: rest)
                       ++ [EvPrint (colorize env
                                      "✓ Dependencies installed successfully."
                                      Colors.GREEN)])%list)).
  { unfold install_dependencies. rewrite Hos, Hchoco. cbv beta iota zeta.
    bind_step ltac:(reflexivity).
    bind_step ltac:(apply try_except_only_ok;
                    bind_step ltac:(by apply choco_loop_run); reflexivity).
    bind_step ltac:(reflexivity).
    unfold ret, add_events. cbn -[map Py.join colorize].
    by rewrite <- !app_assoc. }
  rewrite (effects_add_events _ _ _ _ Hrun), Hrun.
  split; [reflexivity |].
  rewrite !List.filter_app. cbn -[map]. rewrite app_nil_r.
  apply filter_spawn_choco.
Qed.

Lemma choco_installs_each_dependency_witness :
  ["jq"; "inotify-tools"] <> []
  /\ get_os_info choco_host = Windows
  /\ truthy (which choco_host "choco") = true
  /\ List.filter is_spawn
       (effects (install_dependencies choco_host ["jq"; "inotify-tools"])
          empty_world)
     = [EvRun ["choco"; "install"; "-y"; "jq"] false false true;
        EvRun ["choco"; "install"; "-y"; "fswatch"] false false true].
Proof.
  assert (Hne : ["jq"; "inotify-tools"] <> []) by discriminate.
  split; [exact Hne |]. do 2 (split; [reflexivity |]).
  exact (proj2 (choco_installs_each_dependency choco_host
                  ["jq"; "inotify-tools"] empty_world Hne eq_refl eq_refl
                  (fun _ _ => eq_refl))).
Defined.

(** ** Scaffolding *)

Lemma exists_in_file (w : World) (path text : string) :
  files w !! path = Some text -> exists_in w path = true.
Proof.
  intros Hfile. unfold exists_in. rewrite Hfile.
  rewrite bool_decide_eq_true_2 by eauto. reflexivity.
Qed.

Lemma exists_in_false (w : World) (path : string) :
  exists_in w path = false ->
  files w !! path = None /\ path ∉ dirs w.
Proof.
  unfold exists_in. intros [Hf Hd]%orb_false_elim.
  apply bool_decide_eq_false in Hf, Hd. split; [| exact Hd].
  by apply eq_None_not_Some.
Qed.

(** The three ways [create_if_absent] ends. *)
Lemma create_if_absent_run (env : Env) (path content : string) (w : World) :
  create_if_absent env path content w
  = if exists_in w path then (Ok tt, w)
    else if writable env (List.length (trace w)) path
         then (Ok tt, created path content w)
         else (Raise OSError, add_events w [EvCreate path content]).
Proof.
  unfold create_if_absent, created. unfold_effects. cbn.
  fold (exists_in w path). destruct (exists_in w path); cbn; [reflexivity |].
  destruct (writable env _ path); reflexivity.
Qed.

Lemma log_files_functional (path c1 c2 : string) :
  (path, c1) ∈ log_files -> (path, c2) ∈ log_files -> c1 = c2.
Proof.
  unfold log_files. intros H1 H2.
  rewrite !elem_of_cons, elem_of_nil in H1.
  rewrite !elem_of_cons, elem_of_nil in H2.
  destruct H1 as [H1|[H1|[H1|[H1|H1]]]]; try done;
    destruct H2 as [H2|[H2|[H2|[H2|H2]]]]; try done;
    by simplify_eq.
Qed.

Lemma keeps_files_refl (w : World) : keeps_files w w.
Proof.
  repeat split; [done |]. intros q Hnone [text Hsome]. congruence.
Qed.

Lemma keeps_files_trans (w1 w2 w3 : World) :
  keeps_files w1 w2 -> keeps_files w2 w3 -> keeps_files w1 w3.
Proof.
  intros (Hd1 & Hi1 & Hk1 & Hn1) (Hd2 & Hi2 & Hk2 & Hn2).
  split; [congruence |]. split; [congruence |]. split; [by auto |].
  intros q Hnone Hsome.
  destruct (files w2 !! q) as [text|] eqn:H2.
  - destruct (Hn1 q Hnone) as (content & Hin & Hc); [by rewrite H2 |].
    exists content. split; [exact Hin |]. apply Hk2. congruence.
  - by apply Hn2.
Qed.

Lemma keeps_files_add_events (w : World) (l : list event) :
  keeps_files w (add_events w l).
Proof.
  repeat split; [done |]. cbn. intros q Hnone [text Hsome]. congruence.
Qed.

Lemma keeps_files_created (path content : string) (w : World) :
  (path, content) ∈ log_files -> keeps_files w (created path content w).
Proof.
  intros Hin. unfold created.
  destruct (exists_in w path) eqn:Hex; [apply keeps_files_refl |].
  apply exists_in_false in Hex as [Hnone _].
  repeat split; cbn.
  - intros q text Hq. rewrite lookup_insert_ne; [exact Hq | congruence].
  - intros q Hq Hsome. destruct (decide (q = path)) as [-> | Hne].
    + exists content. by rewrite lookup_insert_eq.
    + rewrite lookup_insert_ne in Hsome by done. rewrite Hq in Hsome.
      by destruct Hsome.
Qed.

Lemma keeps_files_exists (w w' : World) (path : string) :
  keeps_files w w' -> exists_in w path = true -> exists_in w' path = true.
Proof.
  intros (Hd & _ & Hk & _). unfold exists_in. rewrite Hd.
  intros [Hf | Hdir]%orb_prop.
  - apply bool_decide_eq_true in Hf as [text Hf].
    rewrite (Hk _ _ Hf). by rewrite bool_decide_eq_true_2 by eauto.
  - rewrite Hdir. apply orb_true_r.
Qed.

Lemma exists_in_created (path content : string) (w : World) :
  exists_in (created path content w) path = true.
Proof.
  unfold created. destruct (exists_in w path) eqn:Hex; [exact Hex |].
  apply (exists_in_file _ _ content). cbn. apply lookup_insert_eq.
Qed.

Lemma provides_print (env : Env) (line : string) : provides env [] (print line).
Proof.
  intros w. exists (Ok tt), (add_events w [EvPrint line]).
  split; [reflexivity |]. split; [apply keeps_files_add_events |].
  left. split; [reflexivity |]. intros path Hin. by apply elem_of_nil in Hin.
Qed.

Lemma provides_create_if_absent (env : Env) (path content : string) :
  (path, content) ∈ log_files ->
  provides env [path] (create_if_absent env path content).
Proof.
  intros Hin w. rewrite create_if_absent_run.
  destruct (exists_in w path) eqn:Hex.
  - exists (Ok tt), w. split; [reflexivity |]. split; [apply keeps_files_refl |].
    left. split; [reflexivity |]. by intros q ->%list_elem_of_singleton.
  - destruct (writable env _ path) eqn:Hw.
    + exists (Ok tt), (created path content w). split; [reflexivity |].
      split; [by apply keeps_files_created |].
      left. split; [reflexivity |]. intros q ->%list_elem_of_singleton.
      apply exists_in_created.
    + eexists _, _. split; [reflexivity |].
      split; [apply keeps_files_add_events |]. right. eauto.
Qed.

Lemma provides_bind (env : Env) (paths1 paths2 : list string) (m1 m2 : M unit) :
  provides env paths1 m1 -> provides env paths2 m2 ->
  provides env (paths1 ++ paths2)%list (m1 ;;; m2).
Proof.
  intros H1 H2 w.
  destruct (H1 w) as (r1 & w1 & Hrun1 & Hk1 & [[-> Hp1] | [-> Hw1]]).
  - rewrite (bind_run _ _ _ _ _ Hrun1).
    destruct (H2 w1) as (r2 & w2 & Hrun2 & Hk2 & Hr2).
    exists r2, w2. split; [exact Hrun2 |].
    split; [by eapply keeps_files_trans |].
    destruct Hr2 as [[-> Hp2] | Hfail]; [left | by right].
    split; [reflexivity |]. intros path [Hin | Hin]%elem_of_app.
    + eapply keeps_files_exists; eauto.
    + by apply Hp2.
  - rewrite (bind_raise _ _ _ _ _ Hrun1). exists (Raise OSError), w1.
    split; [reflexivity |]. split; [exact Hk1 |]. by right.
Qed.

Lemma exists_in_add_events (w : World) (l : list event) (path : string) :
  exists_in (add_events w l) path = exists_in w path.
Proof. reflexivity. Qed.

Lemma log_files_names (path content : string) :
  (path, content) ∈ log_files ->
  path ∈ ["events.log"; "agent_status.json"; "communication.md"; "archive.md"].
Proof.
  unfold log_files. rewrite !elem_of_cons, !elem_of_nil.
  intros [H|[H|[H|[H|H]]]]; try done; injection H as -> _; tauto.
Qed.

Lemma log_files_members :
  ("events.log", "") ∈ log_files
  /\ ("agent_status.json", "[]") ∈ log_files
  /\ ("communication.md", "# Communication Log" ++ newline) ∈ log_files
  /\ ("archive.md", "# Archived Communications" ++ newline) ∈ log_files.
Proof. unfold log_files. rewrite !elem_of_cons. tauto. Qed.

Lemma provides_initialize_files (env : Env) :
  provides env
    ["events.log"; "agent_status.json"; "communication.md"; "archive.md"]
    (initialize_files env).
Proof.
  destruct log_files_members as (H1 & H2 & H3 & H4).
  unfold initialize_files.
  apply (provides_bind env [] _ _ _ (provides_print env _)).
  apply (provides_bind env ["events.log"] _ _ _
           (provides_create_if_absent env _ _ H1)).
  apply (provides_bind env ["agent_status.json"] _ _ _
           (provides_create_if_absent env _ _ H2)).
  apply (provides_bind env ["communication.md"] _ _ _
           (provides_create_if_absent env _ _ H3)).
  apply (provides_bind env ["archive.md"] [] _ _
           (provides_create_if_absent env _ _ H4)).
  apply provides_print.
Qed.

(** X6.  [initialize_files] never overwrites.  Whether it returns or is
    stopped by a refused write, every file that was there keeps its
    content, a file that appears is one of the four log files with its
    initial content, and directories and pending input are untouched.  It
    ends in no exception but the [OSError] of a refused write, and when it
    returns each of the four log files exists, with its initial content
    when the path did not exist before. *)
Theorem initialize_files_creates_without_overwriting (env : Env) (w : World) :
  (fst (initialize_files env w) = Ok tt
   \/ (fst (initialize_files env w) = Raise OSError
       /\ exists (t : nat) (path : string), writable env t path = false))
  /\ dirs (snd (initialize_files env w)) = dirs w
  /\ stdin (snd (initialize_files env w)) = stdin w
  /\ (forall q text : string,
        files w !! q = Some text ->
        files (snd (initialize_files env w)) !! q = Some text)
  /\ (forall q : string,
        files w !! q = None ->
        is_Some (files (snd (initialize_files env w)) !! q) ->
        exists content : string,
          (q, content) ∈ log_files
          /\ files (snd (initialize_files env w)) !! q = Some content)
  /\ (fst (initialize_files env w) = Ok tt ->
      forall path content : string,
        (path, content) ∈ log_files ->
        exists_in (snd (initialize_files env w)) path = true
        /\ (exists_in w path = false ->
            files (snd (initialize_files env w)) !! path = Some content)).
Proof.
  destruct (provides_initialize_files env w)
    as (r & w' & -> & (Hd & Hi & Hk & Hn) & Hr). cbn [fst snd].
  split; [destruct Hr as [[-> _] | [-> Hw]]; [by left | by right] |].
  do 4 (split; [done |]).
  intros -> path content Hin.
  destruct Hr as [[_ Hp] | [Hr _]]; [| discriminate Hr].
  assert (Hex : exists_in w' path = true).
  { by apply Hp, (log_files_names path content). }
  split; [exact Hex |]. intros Hnew.
  apply exists_in_false in Hnew as [Hnone Hnodir].
  assert (Hsome : is_Some (files w' !! path)).
  { unfold exists_in in Hex. rewrite Hd in Hex.
    rewrite (bool_decide_eq_false_2 (path ∈ dirs w)) in Hex by done.
    rewrite orb_false_r in Hex. by apply bool_decide_eq_true in Hex. }
  destruct (Hn path Hnone Hsome) as (content' & Hin' & Hc).
  by rewrite (log_files_functional path content content').
Qed.

Lemma create_if_absent_existing (env : Env) (path content : string) (w : World) :
  exists_in w path = true -> create_if_absent env path content w = (Ok tt, w).
Proof. intros Hex. by rewrite create_if_absent_run, Hex. Qed.

(** X7.  After a run of [initialize_files] that returned, running it again
    creates nothing: the second run only prints its two lines and leaves
    every file as the first run left it. *)
Theorem initialize_files_is_idempotent (env : Env) (w : World) :
  fst (initialize_files env w) = Ok tt ->
  effects (initialize_files env) (snd (initialize_files env w))
  = [EvPrint (colorize env "[3/5]" Colors.BLUE ++ " "
                ++ "Initializing log files...");
     EvPrint (colorize env "✓ Log files initialized." Colors.GREEN)]
  /\ files (snd (initialize_files env (snd (initialize_files env w))))
     = files (snd (initialize_files env w)).
Proof.
  intros Hok.
  destruct (provides_initialize_files env w) as (r & w1 & Hrun1 & _ & Hr).
  rewrite Hrun1 in Hok |- *. cbn [fst snd] in *. subst r.
  destruct Hr as [[_ Hex] | [Hr _]]; [| discriminate Hr].
  assert (Hrun : initialize_files env w1
                 = (Ok tt,
                    add_events w1
                      [EvPrint (colorize env "[3/5]" Colors.BLUE ++ " "
                                  ++ "Initializing log files...");
                       EvPrint (colorize env "✓ Log files initialized."
                                  Colors.GREEN)])).
  { unfold initialize_files.
    bind_step ltac:(reflexivity).
    do 4 bind_step ltac:(apply create_if_absent_existing;
                         refine (Hex _ _); rewrite !elem_of_cons; tauto).
    unfold print, emit, add_events. cbn -[colorize].
    by rewrite <- !app_assoc. }
  rewrite (effects_add_events _ _ _ _ Hrun), Hrun. by split.
Qed.

Lemma initialize_files_is_idempotent_witness :
  fst (initialize_files (linux_host [] []) (world_with (Some "4242") [])) = Ok tt
  /\ files (snd (initialize_files (linux_host [] [])
                   (snd (initialize_files (linux_host [] [])
                           (world_with (Some "4242") [])))))
     = files (snd (initialize_files (linux_host [] [])
                     (world_with (Some "4242") []))).
Proof.
  split; [reflexivity |].
  exact (proj2 (initialize_files_is_idempotent (linux_host [] [])
                  (world_with (Some "4242") []) eq_refl)).
Defined.


Lemma os_chmod_run (env : Env) (path : string) (mode : Z) (w : World) :
  os_chmod env path mode w
  = (if chmod_ok env (List.length (trace w)) path then Ok tt else Raise OSError,
     add_events w [EvChmod path mode]).
Proof.
  unfold os_chmod. unfold_effects. cbn.
  destruct (chmod_ok env _ path); reflexivity.
Qed.

(** The loop over the scripts: it [chmod]s a first part of the list, all of
    it unless a [chmod] is refused. *)
Lemma chmod_loop_run (env : Env) (scripts : list string) (w : World) :
  exists (r : result unit) (done_ : list string),
    for_each scripts (fun script => os_chmod env script 493) w
    = (r, add_events w (map (fun script => EvChmod script 493) done_))
    /\ done_ `prefix_of` scripts
    /\ ((r = Ok tt /\ done_ = scripts)
        \/ (r = Raise OSError
            /\ exists (t : nat) (script : string),
                 script ∈ scripts /\ chmod_ok env t script = false)).
Proof.
  revert w. induction scripts as [|script rest IH]; intros w.
  - exists (Ok tt), []. cbn. rewrite add_events_nil. split; [reflexivity |].
    split; [reflexivity |]. by left.
  - cbn [for_each].
    pose proof (os_chmod_run env script 493 w) as Hstep.
    destruct (chmod_ok env (List.length (trace w)) script) eqn:Hok.
    + rewrite (bind_run _ _ _ _ _ Hstep).
      destruct (IH (add_events w [EvChmod script 493]))
        as (r & done_ & Hrun & Hpre & Hr).
      rewrite Hrun. exists r, (script :: done_).
      split; [by rewrite add_events_app |].
      split; [by apply prefix_cons |].
      destruct Hr as [[-> ->] | [-> (t & s' & Hin & Hno)]]; [by left |].
      right. split; [reflexivity |]. exists t, s'.
      split; [by apply list_elem_of_further | done].
    + rewrite (bind_raise _ _ _ _ _ Hstep).
      exists (Raise OSError), [script]. split; [reflexivity |].
      split; [apply prefix_cons, prefix_nil |].
      right. split; [reflexivity |]. eexists _, script.
      split; [apply list_elem_of_here | exact Hok].
Qed.

(** How [make_scripts_executable] ends, and what it has done by then. *)
Lemma make_scripts_executable_run (env : Env) (w : World) :
  exists (r : result unit) (l : list event),
    make_scripts_executable env w = (r, add_events w l)
    /\ l `prefix_of` chmod_trace env
    /\ ((r = Ok tt /\ l = chmod_trace env)
        \/ (r = Raise OSError
            /\ exists (t : nat) (script : string),
                 script ∈ glob_scripts env /\ chmod_ok env t script = false)).
Proof.
  unfold make_scripts_executable, chmod_trace. cbv zeta.
  destruct (is_unix (get_os_info env)).
  - destruct (chmod_loop_run env (glob_scripts env)
                (add_events w [EvPrint (colorize env "[4/5]" Colors.BLUE ++ " "
                                          ++ "Making scripts executable...")]))
      as (r & done_ & Hrun & Hpre & [[-> ->] | [-> Hrefused]]).
    + eexists (Ok tt), _. split; [| split; [reflexivity | by left]].
      bind_step ltac:(reflexivity). bind_step ltac:(exact Hrun).
      unfold print, emit, add_events. cbn -[colorize map].
      by rewrite <- !app_assoc.
    + eexists (Raise OSError), _. split; [| split; [| by right]].
      * bind_step ltac:(reflexivity).
        rewrite (bind_raise _ _ _ _ _ Hrun). by rewrite add_events_app.
      * apply prefix_app. destruct Hpre as [tail ->].
        rewrite map_app, <- app_assoc. apply prefix_app_r. reflexivity.
  - eexists (Ok tt), _. split; [| split; [reflexivity | by left]].
    bind_step ltac:(reflexivity). bind_step ltac:(reflexivity).
    unfold print, emit, add_events. cbn -[colorize].
    by rewrite <- !app_assoc.
Qed.


(** X10.  [configure_agent] takes the next three lines of input as the
    agent's id, type and description, in that order, and leaves the rest;
    with fewer than three lines it ends in [EOFError].  It touches no
    file. *)
Theorem configure_agent_reads_three_lines (env : Env) (w : World) :
  fst (configure_agent env w)
  = match stdin w with
    | agent_id :: agent_type :: description :: _ =>
        Ok (agent_id, agent_type, description)
    | _ => Raise EOFError
    end
  /\ stdin (snd (configure_agent env w)) = drop 3 (stdin w)
  /\ files (snd (configure_agent env w)) = files w.
Proof.
  unfold configure_agent. unfold_effects. cbn.
  destruct (stdin w) as [|a [|b [|c rest]]]; cbn; done.
Qed.

(** ** Calls to the collaborator scripts *)

(** X11.  [register_agent] does not look at the exit status of the
    registration: whatever status it ends with, the status update to
    [active] is issued next, through the same interpreter. *)
Theorem register_agent_ignores_exit_status (env : Env)
    (agent_id agent_type description : string) (w : World) (code : Z) :
  spawn env (List.length (trace w))
    (agent_status_command env
       ++ ["register"; agent_id; agent_type; description])%list
  = Exited code ->
  effects (register_agent env agent_id agent_type description) w
  = [EvRun (agent_status_command env
              ++ ["register"; agent_id; agent_type; description])%list
       false false false;
     EvRun (agent_status_command env
              ++ ["status"; agent_id; "active";
                  "Starting up and ready for collaboration"])%list
       false false false].
Proof.
  unfold effects, register_agent, agent_status_command. unfold_effects.
  destruct (get_os_info env); cbn; intros ->; cbn;
    each_outcome env; show_effects.
Qed.

Lemma register_agent_ignores_exit_status_witness :
  spawn (host_exiting [] 1) (List.length (trace empty_world))
    (agent_status_command (host_exiting [] 1)
       ++ ["register"; "agent7"; "llm"; "helper"])%list
  = Exited 1
  /\ effects (register_agent (host_exiting [] 1) "agent7" "llm" "helper")
       empty_world
     = [EvRun ["./scripts/agent_status.sh"; "register"; "agent7"; "llm"; "helper"]
          false false false;
        EvRun ["./scripts/agent_status.sh"; "status"; "agent7"; "active";
               "Starting up and ready for collaboration"]
          false false false].
Proof.
  split; [reflexivity |].
  exact (register_agent_ignores_exit_status (host_exiting [] 1)
           "agent7" "llm" "helper" empty_world 1 eq_refl).
Defined.

(** X12.  The calls [register_agent], [send_message] and
    [generate_snapshot] only spawn commands: they touch no file, no
    directory and no input, and the one way they fail is the [OSError] of a
    command that cannot be started.  On a host where every command starts
    they return normally whatever the exit statuses. *)
Theorem collaborator_calls_only_spawn (env : Env)
    (agent_id agent_type text : string) :
  appends (spawn_failure env) (register_agent env agent_id agent_type text)
  /\ appends (spawn_failure env) (send_message env agent_id agent_type text)
  /\ appends (spawn_failure env) (generate_snapshot env)
  /\ (all_startable env ->
      forall w : World,
        fst (register_agent env agent_id agent_type text w) = Ok tt
        /\ fst (send_message env agent_id agent_type text w) = Ok tt
        /\ fst (generate_snapshot env w) = Ok tt).
Proof.
  split; [apply appends_register_agent |].
  split; [apply appends_send_message |].
  split; [apply appends_generate_snapshot |].
  intros Hall w.
  destruct (appends_register_agent env agent_id agent_type text w)
    as ([[]|e1] & l1 & -> & H1);
    [| destruct H1 as (_ & t & argv & Hs); by destruct (Hall t argv)].
  destruct (appends_send_message env agent_id agent_type text w)
    as ([[]|e2] & l2 & -> & H2);
    [| destruct H2 as (_ & t & argv & Hs); by destruct (Hall t argv)].
  destruct (appends_generate_snapshot env w) as ([[]|e3] & l3 & -> & H3);
    [| destruct H3 as (_ & t & argv & Hs); by destruct (Hall t argv)].
  done.
Qed.

(** *** The JSON payload *)

Lemma all_chars_app (p : ascii -> bool) (s1 s2 : string) :
  all_chars p (s1 ++ s2) = all_chars p s1 && all_chars p s2.
Proof.
  induction s1 as [|c s1 IH]; [reflexivity |].
  change (String c s1 ++ s2) with (String c (s1 ++ s2)).
  cbn [all_chars]. by rewrite IH, andb_assoc.
Qed.

Lemma json_escape_char_printable (c : ascii) :
  all_chars printable (json_escape_char c) = true.
Proof. destruct c as [[] [] [] [] [] [] [] []]; reflexivity. Qed.

Lemma json_escape_printable (s : string) :
  all_chars printable (json_escape s) = true.
Proof.
  induction s as [|c s IH]; cbn [json_escape]; [reflexivity |].
  by rewrite all_chars_app, json_escape_char_printable, IH.
Qed.

Lemma json_string_printable (s : string) :
  all_chars printable (json_string s) = true.
Proof.
  unfold json_string. rewrite !all_chars_app, json_escape_printable. reflexivity.
Qed.

(** X13.  The JSON text [send_message] hands to [log_event.sh] is one line
    of printable ASCII whatever the agent id and the message hold: every
    control character, line break and non-ASCII byte in them is escaped. *)
Theorem json_message_is_printable (agent_id message : string) :
  all_chars printable (json_message agent_id message) = true.
Proof.
  unfold json_message. rewrite !all_chars_app, !json_string_printable.
  reflexivity.
Qed.

Lemma json_escape_char_plain (c : ascii) :
  plain c = true -> json_escape_char c = String c "".
Proof. destruct c as [[] [] [] [] [] [] [] []]; (reflexivity || discriminate). Qed.

(** X14.  Text made of printable ASCII without double quotes and
    backslashes goes into the JSON payload unchanged, between double
    quotes. *)
Theorem json_string_keeps_plain_text (s : string) :
  all_chars plain s = true -> json_string s = dquote ++ s ++ dquote.
Proof.
  intros Hplain. unfold json_string. do 2 f_equal.
  induction s as [|c s IH]; [reflexivity |].
  cbn in Hplain. apply andb_prop in Hplain as [Hc Hs].
  cbn [json_escape]. by rewrite (json_escape_char_plain c Hc), (IH Hs).
Qed.

Lemma json_string_keeps_plain_text_witness :
  all_chars plain "agent7" = true
  /\ json_string "agent7" = dquote ++ "agent7" ++ dquote.
Proof.
  split; [reflexivity |].
  exact (json_string_keeps_plain_text "agent7" eq_refl).
Defined.

(** ** PID records *)

Lemma string_length_app (s1 s2 : string) :
  String.length (s1 ++ s2) = (String.length s1 + String.length s2)%nat.
Proof.
  induction s1 as [|c s1 IH]; [reflexivity |].
  change (String c s1 ++ s2) with (String c (s1 ++ s2)). cbn. by rewrite IH.
Qed.

Lemma string_app_inv_tail (s1 s2 tail : string) :
  s1 ++ tail = s2 ++ tail -> s1 = s2.
Proof.
  revert s2. induction s1 as [|c s1 IH]; intros [|c' s2] Heq.
  - reflexivity.
  - apply (f_equal String.length) in Heq.
    rewrite (string_length_app (String c' s2) tail) in Heq.
    change (String.length ("" ++ tail)) with (String.length tail) in Heq.
    change (String.length (String c' s2)) with (S (String.length s2)) in Heq.
    lia.
  - apply (f_equal String.length) in Heq.
    rewrite (string_length_app (String c s1) tail) in Heq.
    change (String.length ("" ++ tail)) with (String.length tail) in Heq.
    change (String.length (String c s1)) with (S (String.length s1)) in Heq.
    lia.
  - change (String c (s1 ++ tail) = String c' (s2 ++ tail)) in Heq.
    injection Heq as -> Heq. f_equal. by apply IH.
Qed.

Lemma heartbeat_pid_file_inj (a b : string) :
  heartbeat_pid_file a = heartbeat_pid_file b -> a = b.
Proof.
  unfold heartbeat_pid_file. intros Heq.
  apply (String.app_inj ".heartbeat_") in Heq.
  by apply string_app_inv_tail in Heq.
Qed.

(** X15.  Two agents share a PID file only when they have the same id. *)
Theorem heartbeat_pid_files_do_not_collide (a b : string) :
  heartbeat_pid_file a = heartbeat_pid_file b <-> a = b.
Proof. split; [apply heartbeat_pid_file_inj | by intros ->]. Qed.

(** What [start_heartbeat] leaves of the working directory: everything but
    the agent's own PID file.  It returns, unless the signal it sends ends
    the script. *)
Lemma start_heartbeat_frame (env : Env) (agent_id : string) (w : World) :
  (fst (start_heartbeat env agent_id w) = Ok true
   \/ (fst (start_heartbeat env agent_id w) = Raise Terminated
       /\ exists (text : string) (pid : Z),
            files w !! heartbeat_pid_file agent_id = Some text
            /\ Py.int (strip text) = Ok pid
            /\ reaches_script env pid = true))
  /\ dirs (snd (start_heartbeat env agent_id w)) = dirs w
  /\ stdin (snd (start_heartbeat env agent_id w)) = stdin w
  /\ forall path : string,
       path <> heartbeat_pid_file agent_id ->
       files (snd (start_heartbeat env agent_id w)) !! path = files w !! path.
Proof.
  destruct (files w !! heartbeat_pid_file agent_id) as [text|] eqn:Hfile.
  - destruct (Py.int (strip text)) as [pid|e] eqn:Hint.
    + destruct (reaches_script env pid) eqn:Hself.
      * rewrite (start_heartbeat_ended env agent_id w _ _
                   (terminate_and_clear_self env agent_id w text pid
                      Hfile Hint Hself)).
        cbn. split; [right; split; [reflexivity | by exists text, pid] |]. done.
      * rewrite (start_heartbeat_after_cleanup env agent_id w _
                   (terminate_and_clear_parsable env agent_id w text pid
                      Hfile Hint Hself)).
        cbn. split; [by left |]. repeat split.
        intros path Hne. by rewrite lookup_delete_ne.
    + rewrite (start_heartbeat_after_cleanup env agent_id w _
                 (terminate_and_clear_unparsable env agent_id w text e Hfile Hint)).
      split; [by left | done].
  - rewrite (start_heartbeat_after_cleanup env agent_id w _
               (terminate_and_clear_absent env agent_id w Hfile)).
    split; [by left | done].
Qed.

(** X16.  [start_heartbeat] raises no exception and keeps to its own
    record.  It returns [True], unless the PID file holds a PID through
    which SIGTERM reaches the script itself (its own PID or, on Linux and
    macOS, 0 or its negated process group): then the script ends at the
    [os.kill].  In every case no other file changes, no directory and no
    pending input changes, and the PID records of all other agents are as
    they were. *)
Theorem start_heartbeat_touches_only_its_record (env : Env) (agent_id : string)
    (w : World) :
  (fst (start_heartbeat env agent_id w) = Ok true
   \/ (fst (start_heartbeat env agent_id w) = Raise Terminated
       /\ exists (text : string) (pid : Z),
            files w !! heartbeat_pid_file agent_id = Some text
            /\ Py.int (strip text) = Ok pid
            /\ reaches_script env pid = true))
  /\ dirs (snd (start_heartbeat env agent_id w)) = dirs w
  /\ stdin (snd (start_heartbeat env agent_id w)) = stdin w
  /\ (forall path : string,
        path <> heartbeat_pid_file agent_id ->
        files (snd (start_heartbeat env agent_id w)) !! path = files w !! path)
  /\ (forall other : string,
        other <> agent_id ->
        has_record (snd (start_heartbeat env agent_id w)) other
        = has_record w other).
Proof.
  destruct (start_heartbeat_frame env agent_id w) as (Hok & Hdirs & Hin & Hfiles).
  repeat split; try done.
  intros other Hne. unfold has_record. rewrite Hfiles; [reflexivity |].
  intros Heq. by apply heartbeat_pid_file_inj in Heq.
Qed.



(** A PID file that holds 0: on Linux the signal goes to the script's own
    process group, the script ends and the file is still there. *)
Example pid_zero_ends_the_script :
  reaches_script (linux_host [] []) 0 = true
  /\ start_heartbeat (linux_host [] []) "agent7" (world_with (Some "0") [])
     = (Raise Terminated, add_events (world_with (Some "0") []) [EvKill 0]).
Proof. split; vm_compute; reflexivity. Qed.

(** ** The monitors, continued *)

(** X18.  On Windows [start_monitoring] never calls [pkill] or any other
    command through [subprocess.run]; it opens a new window through the
    shell when [start] is found and launches nothing otherwise. *)
Theorem windows_monitoring_strategy (env : Env) (w : World) :
  get_os_info env = Windows ->
  launch_strategy (effects (start_monitoring env) w)
  = (if truthy (which env "start") then Some foreground_window else None)
  /\ existsb is_run (effects (start_monitoring env) w) = false.
Proof.
  intros Hwin. unfold effects, start_monitoring. unfold_effects.
  rewrite Hwin. destruct (truthy (which env "start")); cbn;
    each_outcome env; split; show_effects.
Qed.

Lemma windows_monitoring_strategy_witness :
  get_os_info windows_host = Windows
  /\ launch_strategy (effects (start_monitoring windows_host) empty_world) = None.
Proof.
  split; [reflexivity |].
  exact (proj1 (windows_monitoring_strategy windows_host empty_world eq_refl)).
Defined.

(** X19.  On Linux and macOS a run of [start_monitoring] that returns
    prints the advisory exactly when no multiplexer was found: never after
    a launch under [screen] or [tmux], always after the background
    launch. *)
Theorem advisory_only_without_multiplexer (env : Env) (w : World) :
  is_unix (get_os_info env) = true ->
  fst (start_monitoring env w) = Ok true ->
  existsb (is_print_of (colorize env advisory Colors.YELLOW))
    (effects (start_monitoring env) w)
  = negb (truthy (which env "screen") || truthy (which env "tmux")).
Proof.
  intros Hunix. unfold effects, start_monitoring, colorize. unfold_effects.
  destruct (Colors.supports_color env);
    (destruct (get_os_info env); [| | discriminate Hunix]);
    destruct (truthy (which env "screen"));
    destruct (truthy (which env "tmux")); cbn;
    each_outcome env; intros Hok; try discriminate Hok;
    rewrite <- ?app_assoc; cbn; rewrite drop_app_length; reflexivity.
Qed.

Lemma advisory_only_without_multiplexer_witness :
  is_unix (get_os_info (linux_host ["screen"] [])) = true
  /\ fst (start_monitoring (linux_host ["screen"] []) empty_world) = Ok true
  /\ existsb (is_print_of (colorize (linux_host ["screen"] []) advisory
                             Colors.YELLOW))
       (effects (start_monitoring (linux_host ["screen"] [])) empty_world)
     = false.
Proof.
  do 2 (split; [reflexivity |]).
  exact (advisory_only_without_multiplexer (linux_host ["screen"] [])
           empty_world eq_refl eq_refl).
Defined.

(** X20.  [start_monitoring] leaves the working directory alone: on every
    platform and whatever the commands do, the files, the directories and
    the pending input are the same after it as before. *)
Theorem start_monitoring_leaves_files_alone (env : Env) (w : World) :
  files (snd (start_monitoring env w)) = files w
  /\ dirs (snd (start_monitoring env w)) = dirs w
  /\ stdin (snd (start_monitoring env w)) = stdin w.
Proof.
  destruct (appends_start_monitoring env w) as (r & l & -> & _). done.
Qed.

(** ** The main sequence, continued *)

Lemma never_raises_ret {A : Type} (a : A) : never_raises (ret a).
Proof. intros w. by exists a, w. Qed.

Lemma never_raises_bind {A B : Type} (m : M A) (k : A -> M B) :
  never_raises m -> (forall a : A, never_raises (k a)) ->
  never_raises (bind m k).
Proof.
  intros Hm Hk w. destruct (Hm w) as (a & w' & Hrun).
  rewrite (bind_run m k w w' a Hrun). apply Hk.
Qed.

Lemma never_raises_appends {A : Type} (E : exn -> Prop) (m : M A) :
  appends E m -> (forall e : exn, ~ E e) -> never_raises m.
Proof.
  intros Hm Hnone w. destruct (Hm w) as ([a|e] & l & Hrun & Hr).
  - eauto.
  - by destruct (Hnone e).
Qed.

Lemma no_spawn_failure (env : Env) :
  all_startable env -> forall e : exn, ~ spawn_failure env e.
Proof. intros Hall e (_ & t & argv & Hs). by destruct (Hall t argv). Qed.

(** An appending computation on a host that cannot make it fail. *)
Lemma appends_run {A : Type} (E : exn -> Prop) (m : M A) (w : World) :
  appends E m -> (forall e : exn, ~ E e) ->
  exists (a : A) (l : list event), m w = (Ok a, add_events w l).
Proof.
  intros Hm Hnone. destruct (Hm w) as ([a|e] & l & Hrun & Hr).
  - eauto.
  - by destruct (Hnone e).
Qed.

Lemma setup_directories_run (env : Env) (w : World) :
  files w !! "logs" = None ->
  exists w' : World,
    setup_directories env w = (Ok tt, w')
    /\ files w' = files w /\ stdin w' = stdin w.
Proof.
  intros Hlogs. unfold setup_directories. unfold_effects. cbn.
  rewrite Hlogs. cbn. eauto.
Qed.

Lemma configure_agent_run (env : Env) (w : World)
    (agent_id agent_type description : string) (rest : list string) :
  stdin w = agent_id :: agent_type :: description :: rest ->
  exists w' : World,
    configure_agent env w = (Ok (agent_id, agent_type, description), w')
    /\ files w' = files w.
Proof.
  intros Hin. unfold configure_agent. unfold_effects. cbn.
  rewrite Hin. cbn. eauto.
Qed.

Lemma heartbeat_pid_file_not_log (agent_id content : string) :
  (heartbeat_pid_file agent_id, content) ∉ log_files.
Proof.
  intros Hin%log_files_names. unfold heartbeat_pid_file in Hin.
  rewrite !elem_of_cons, elem_of_nil in Hin.
  destruct Hin as [H|[H|[H|[H|H]]]]; try done; discriminate H.
Qed.

(** What gains only log files leaves every PID record as it was. *)
Lemma keeps_files_pid_file (w w' : World) (agent_id : string) :
  keeps_files w w' ->
  files w' !! heartbeat_pid_file agent_id
  = files w !! heartbeat_pid_file agent_id.
Proof.
  intros (_ & _ & Hk & Hn).
  destruct (files w !! heartbeat_pid_file agent_id) as [text|] eqn:Hw.
  - by apply Hk.
  - destruct (files w' !! heartbeat_pid_file agent_id) as [text|] eqn:Hw';
      [| reflexivity].
    destruct (Hn _ Hw) as (content & Hin & _); [by rewrite Hw' |].
    by destruct (heartbeat_pid_file_not_log agent_id content).
Qed.

Lemma start_heartbeat_returns (env : Env) (agent_id : string) (w : World) :
  record_spares_script env agent_id w ->
  exists w' : World, start_heartbeat env agent_id w = (Ok true, w').
Proof.
  intros Hspare.
  destruct (start_heartbeat_frame env agent_id w)
    as ([Hok | (_ & text & pid & Hfile & Hint & Hself)] & _).
  - destruct (start_heartbeat env agent_id w) as [r w']. cbn in Hok. subst r.
    eauto.
  - rewrite (Hspare text pid Hfile Hint) in Hself. discriminate Hself.
Qed.

Lemma always_returns_ret {A : Type} (v : A) : always_returns (ret v) v.
Proof. intros w. by exists w. Qed.

Lemma always_returns_bind {A B : Type} (m : M A) (k : A -> M B) (v : B) :
  never_raises m -> (forall a : A, always_returns (k a) v) ->
  always_returns (bind m k) v.
Proof.
  intros Hm Hk w. destruct (Hm w) as (a & w' & Hrun).
  rewrite (bind_run m k w w' a Hrun). apply Hk.
Qed.

Lemma never_raises_print (line : string) : never_raises (print line).
Proof. intros w. by eexists _, _. Qed.

(** What [main] does after [start_heartbeat], for a given agent. *)
Lemma after_heartbeat_returns_0 (env : Env) (agent_id agent_type : string) :
  all_startable env ->
  always_returns
    (send_message env agent_id agent_type
       (agent_type ++ " agent '" ++ agent_id
          ++ "' has joined the collaboration.") ;;;
     generate_snapshot env ;;;
     print (colorize env (newline ++ "✓ Setup complete!") Colors.GREEN) ;;;
     print ("Your agent ID: " ++ colorize env agent_id Colors.CYAN
              ++ " is registered and active.") ;;;
     print "Event monitoring is running in the background." ;;;
     print ("You can now begin collaborating with other agents." ++ newline) ;;;
     show_quick_reference env agent_id ;;;
     print (colorize env ("You're all set! Happy collaborating!" ++ newline)
              Colors.GREEN) ;;;
     ret 0)
    0.
Proof.
  intros Hall. pose proof (no_spawn_failure env Hall) as Hnone.
  apply always_returns_bind;
    [exact (never_raises_appends _ _ (appends_send_message env _ _ _) Hnone) |].
  intros _. apply always_returns_bind;
    [exact (never_raises_appends _ _ (appends_generate_snapshot env) Hnone) |].
  intros _.
  do 4 (apply always_returns_bind; [apply never_raises_print | intros _]).
  apply always_returns_bind;
    [exact (never_raises_appends (fun _ => False) _
              (appends_show_quick_reference _ env agent_id) (fun _ H => H)) |].
  intros _. apply always_returns_bind; [apply never_raises_print | intros _].
  apply always_returns_ret.
Qed.

Lemma bring_up_completes (env : Env) (w : World)
    (agent_id agent_type description : string) (rest : list string) :
  all_startable env ->
  (forall (t : nat) (path : string), writable env t path = true) ->
  (forall (t : nat) (script : string), chmod_ok env t script = true) ->
  files w !! "logs" = None ->
  stdin w = agent_id :: agent_type :: description :: rest ->
  record_spares_script env agent_id w ->
  fst (bring_up env w) = Ok 0.
Proof.
  intros Hall Hwrite Hchmod Hlogs Hin Hspare. unfold bring_up.
  pose proof (no_spawn_failure env Hall) as Hnone.
  destruct (setup_directories_run env w Hlogs) as (w1 & Hrun1 & Hf1 & Hin1).
  rewrite (bind_run _ _ _ _ _ Hrun1).
  destruct (provides_initialize_files env w1)
    as (r2 & w2 & Hrun2 & Hk2 & [[-> _] | [_ (t & path & Hno)]]);
    [| rewrite Hwrite in Hno; discriminate Hno].
  rewrite (bind_run _ _ _ _ _ Hrun2).
  destruct (make_scripts_executable_run env w2)
    as (r3 & l3 & Hrun3 & _ & [[-> _] | [_ (t & script & _ & Hno)]]);
    [| rewrite Hchmod in Hno; discriminate Hno].
  rewrite (bind_run _ _ _ _ _ Hrun3).
  assert (Hin3 : stdin (add_events w2 l3)
                 = agent_id :: agent_type :: description :: rest).
  { destruct Hk2 as (_ & Hi2 & _). cbn. congruence. }
  destruct (configure_agent_run env _ _ _ _ _ Hin3) as (w4 & Hrun4 & Hf4).
  rewrite (bind_run _ _ _ _ _ Hrun4). cbv beta iota.
  destruct (appends_run _ _ w4 (appends_start_monitoring env) Hnone)
    as (b & l5 & Hrun5).
  rewrite (bind_run _ _ _ _ _ Hrun5).
  destruct (appends_run _ _ (add_events w4 l5)
              (appends_register_agent env agent_id agent_type description)
              Hnone) as ([] & l6 & Hrun6).
  rewrite (bind_run _ _ _ _ _ Hrun6).
  assert (Hspare6 : record_spares_script env agent_id
                      (add_events (add_events w4 l5) l6)).
  { intros text pid Hfile. apply Hspare. cbn in Hfile.
    rewrite Hf4 in Hfile. cbn in Hfile.
    rewrite (keeps_files_pid_file w1 w2 agent_id Hk2) in Hfile.
    by rewrite Hf1 in Hfile. }
  destruct (start_heartbeat_returns env agent_id _ Hspare6) as (w7 & Hrun7).
  rewrite (bind_run _ _ _ _ _ Hrun7).
  destruct (after_heartbeat_returns_0 env agent_id agent_type Hall w7)
    as (w8 & Hrun8).
  by rewrite Hrun8.
Qed.

Lemma check_dependencies_any_world (env : Env) (w w' : World) :
  fst (check_dependencies env w) = fst (check_dependencies env w').
Proof. reflexivity. Qed.

(** The part of [main] before the dependencies are dealt with only prints. *)
Lemma main_prefix_run (env : Env) (w : World) :
  exists (missing : list string) (l : list event),
    fst (check_dependencies env w) = Ok missing
    /\ main env w
       = (abort <-
            match missing with
            | [] => ret false
            | _ => installed <- install_dependencies env missing ;;
                   ret (negb installed)
            end ;;
          if abort then
            print (colorize env
                     (newline ++ "Setup cannot continue without required dependencies.")
                     Colors.RED) ;;;
            print "Please install them manually and run this script again." ;;;
            ret 1
          else bring_up env) (add_events w l).
Proof.
  unfold main.
  destruct (appends_run (fun _ => False) (print_banner env) w
              (appends_print_banner _ env) (fun _ H => H)) as ([] & l1 & Hrun1).
  rewrite (bind_run _ _ _ _ _ Hrun1). cbv zeta.
  match goal with
  | |- context [bind (print ?line) _ ?w1] =>
      rewrite (bind_run (print line) _ w1 (add_events w1 [EvPrint line]) tt
                 eq_refl)
  end.
  match goal with
  | |- context [bind (check_dependencies env) _ ?w2] =>
      destruct (appends_run (fun _ => False) (check_dependencies env) w2
                  (appends_check_dependencies _ env) (fun _ H => H))
        as (missing & l3 & Hrun3)
  end.
  rewrite (bind_run _ _ _ _ _ Hrun3).
  exists missing. eexists. split.
  - apply (f_equal fst) in Hrun3. cbn [fst] in Hrun3. rewrite <- Hrun3.
    apply check_dependencies_any_world.
  - by rewrite !add_events_app.
Qed.

(** X21.  On a host where every command can be started, every write and
    every [chmod] is allowed, with no regular file named [logs] in the way,
    three lines of input at hand, and a PID record for the agent that, if
    it holds a PID, does not point SIGTERM at the script itself, [main]
    ends in no exception: it returns 0 or 1 whatever the commands' exit
    statuses, whatever tools are installed and whether or not the old PID
    can be signalled, and it returns 0 when no dependency is missing. *)
Theorem main_completes_when_commands_start (env : Env) (w : World)
    (agent_id agent_type description : string) (rest : list string) :
  all_startable env ->
  (forall (t : nat) (path : string), writable env t path = true) ->
  (forall (t : nat) (script : string), chmod_ok env t script = true) ->
  files w !! "logs" = None ->
  stdin w = agent_id :: agent_type :: description :: rest ->
  record_spares_script env agent_id w ->
  (fst (main env w) = Ok 0 \/ fst (main env w) = Ok 1)
  /\ (fst (check_dependencies env w) = Ok [] -> fst (main env w) = Ok 0).
Proof.
  intros Hall Hwrite Hchmod Hlogs Hin Hspare.
  destruct (main_prefix_run env w) as (missing & l & Hcheck & ->).
  assert (Hup : forall l' : list event,
            fst (bring_up env (add_events (add_events w l) l')) = Ok 0).
  { intros l'. by eapply bring_up_completes. }
  destruct missing as [|dep deps].
  - rewrite (bind_run _ _ _ _ false eq_refl). cbv iota.
    rewrite <- (add_events_nil (add_events w l)).
    split; [left |]; by rewrite Hup.
  - split; [| by rewrite Hcheck].
    destruct (appends_run _ (install_dependencies env (dep :: deps))
                (add_events w l) (appends_install_dependencies env _)
                (no_spawn_failure env Hall)) as (installed & l' & Hrun).
    erewrite (bind_run _ _ _ _ (negb installed));
      [| by rewrite (bind_run _ _ _ _ _ Hrun)].
    destruct installed; cbn [negb]; cbv iota.
    + left. apply Hup.
    + right. reflexivity.
Qed.

Lemma main_completes_when_commands_start_witness :
  all_startable (host_exiting ["jq"; "inotifywait"] 3)
  /\ files (world_with (Some "4242") ["agent7"; "llm"; "helper"]) !! "logs"
     = None
  /\ record_spares_script (host_exiting ["jq"; "inotifywait"] 3) "agent7"
       (world_with (Some "4242") ["agent7"; "llm"; "helper"])
  /\ fst (main (host_exiting ["jq"; "inotifywait"] 3)
            (world_with (Some "4242") ["agent7"; "llm"; "helper"]))
     = Ok 0.
Proof.
  assert (Hall : all_startable (host_exiting ["jq"; "inotifywait"] 3)).
  { intros t argv. discriminate. }
  assert (Hspare : record_spares_script (host_exiting ["jq"; "inotifywait"] 3)
                     "agent7"
                     (world_with (Some "4242") ["agent7"; "llm"; "helper"])).
  { intros text pid Hfile Hint.
    assert (Htext : text = "4242") by (vm_compute in Hfile; congruence).
    subst text. vm_compute in Hint. injection Hint as <-. reflexivity. }
  split; [exact Hall |]. split; [reflexivity |]. split; [exact Hspare |].
  exact (proj2 (main_completes_when_commands_start
                  (host_exiting ["jq"; "inotifywait"] 3)
                  (world_with (Some "4242") ["agent7"; "llm"; "helper"])
                  "agent7" "llm" "helper" [] Hall
                  (fun _ _ => eq_refl) (fun _ _ => eq_refl)
                  eq_refl eq_refl Hspare) eq_refl).
Defined.

(** X22.  A setup that ends with status 1 found a dependency missing and
    has done nothing to the working directory: no file and no directory
    was created and the operator was asked nothing. *)
Theorem main_status_1_leaves_nothing (env : Env) (w : World) :
  fst (main env w) = Ok 1 ->
  fst (check_dependencies env w) <> Ok []
  /\ files (snd (main env w)) = files w
  /\ dirs (snd (main env w)) = dirs w
  /\ stdin (snd (main env w)) = stdin w.
Proof.
  destruct (main_prefix_run env w) as (missing & l & Hcheck & ->).
  rewrite Hcheck.
  destruct missing as [|dep deps].
  - rewrite (bind_run _ _ _ _ false eq_refl). cbv iota. intros Hone.
    by apply (bring_up_status env) in Hone.
  - destruct (appends_install_dependencies env (dep :: deps) (add_events w l))
      as ([installed|e] & l' & Hrun & _).
    + rewrite (bind_run _ _ _ (add_events (add_events w l) l') (negb installed))
        by (by rewrite (bind_run _ _ _ _ _ Hrun)).
      destruct installed; cbn [negb]; cbv iota.
      * intros Hone. by apply (bring_up_status env) in Hone.
      * intros _. split; [discriminate |]. done.
    + rewrite (bind_raise _ _ _ (add_events (add_events w l) l') e)
        by (by rewrite (bind_raise _ _ _ _ _ Hrun)).
      discriminate.
Qed.

Lemma main_status_1_leaves_nothing_witness :
  fst (main (linux_host [] []) (world_with None ["agent7"; "llm"; "helper"]))
    = Ok 1
  /\ stdin (snd (main (linux_host [] [])
                   (world_with None ["agent7"; "llm"; "helper"])))
     = ["agent7"; "llm"; "helper"].
Proof.
  split; [vm_compute; reflexivity |].
  exact (proj2 (proj2 (proj2
           (main_status_1_leaves_nothing (linux_host [] [])
              (world_with None ["agent7"; "llm"; "helper"]) eq_refl)))).
Defined.
